(** * Dumberg: the stock data aggregation layer

    A shallow embedding of [dumbergapi.py] (class [DumbergAPI]) and of the
    callbacks of [dumberg.py] that touch the ticker registry, together with
    the properties of the aggregation core.

    Conventions of the embedding:
    - a pandas Series is a list of optional numbers, [None] being the missing
      marker NaN;
    - the registry [company_dict] is an insertion-ordered association list,
      because Python dictionaries iterate in insertion order and that order
      decides the order of the rows when no company is selected;
    - the Yahoo Finance client is a record of functions, one snapshot of what
      the network answers;
    - a method of [DumbergAPI] is a computation that receives the object,
      returns a value or raises, and hands the object back. *)

From Stdlib Require Import String Ascii List ZArith QArith Lia Bool.
From Stdlib Require Import DecimalString.
From Corelib Require Import PrimFloat.
Import ListNotations.

Set Implicit Arguments.

(** ** Numbers

    Prices are Python floats.  The series functions are written once, over
    the operations the source uses, and instantiated twice: with binary64
    floats, where runs are evaluated as the interpreter evaluates them, and
    with exact rationals, where the algebraic laws hold.  The rationals
    have no NaN and no infinity: they stand for the floats only where no
    divisor is zero, and the statements made over them say so. *)

Class Number (F : Type) : Type := {
  n0 : F;
  n1 : F;
  n100 : F;
  n1e9 : F;
  nadd : F -> F -> F;
  nsub : F -> F -> F;
  nmul : F -> F -> F;
  ndiv : F -> F -> F;
  ngt : F -> F -> bool;
  nisnan : F -> bool
}.

Declare Scope num_scope.
Delimit Scope num_scope with num.
Infix "+" := nadd : num_scope.
Infix "-" := nsub : num_scope.
Infix "*" := nmul : num_scope.
Infix "/" := ndiv : num_scope.
Infix ">?" := ngt (at level 70, no associativity) : num_scope.

#[export] Instance Q_Number : Number Q := {
  n0 := 0%Q;
  n1 := 1%Q;
  n100 := 100%Q;
  n1e9 := 1e9%Q;
  nadd := Qplus;
  nsub := Qminus;
  nmul := Qmult;
  ndiv := Qdiv;
  ngt := fun a b => negb (Qle_bool a b);
  nisnan := fun _ => false
}.

#[export] Instance float_Number : Number float := {
  n0 := 0%float;
  n1 := 1%float;
  n100 := 100%float;
  n1e9 := 1e9%float;
  nadd := PrimFloat.add;
  nsub := PrimFloat.sub;
  nmul := PrimFloat.mul;
  ndiv := PrimFloat.div;
  ngt := fun a b => PrimFloat.ltb b a;
  nisnan := PrimFloat.is_nan
}.

(** ** pandas Series operations used by the source *)

Section Series.
Context {F : Type} `{Number F}.
Local Open Scope num_scope.

(** A Series holds a value or the missing marker in each place.  pandas
    keeps the missing marker as the float NaN, so a NaN that a computation
    produces is a missing value like any other: [entry] is how a float
    enters a Series. *)
Definition Series : Type := list (option F).

Definition entry (x : F) : option F := if nisnan x then None else Some x.

(** [Series.ffill]: a missing value takes the last value seen before it. *)
Fixpoint ffill_from (prev : option F) (s : Series) : Series :=
  match s with
  | [] => []
  | x :: r =>
      let v := match x with Some _ => x | None => prev end in
      v :: ffill_from v r
  end.

Definition ffill (s : Series) : Series := ffill_from None s.

(** [Series.shift(1)]: every value moves one place down, the first place
    becomes missing and the last value falls off. *)
Definition shift (s : Series) : Series :=
  match s with
  | [] => []
  | _ :: _ => None :: removelast s
  end.

(** Elementwise [a / b - 1]; missing on either side gives missing, and so
    does a quotient that is NaN. *)
Fixpoint div_sub1 (a b : Series) : Series :=
  match a, b with
  | x :: a', y :: b' =>
      match x, y with
      | Some u, Some v => entry (u / v - n1)
      | _, _ => None
      end :: div_sub1 a' b'
  | _, _ => []
  end.

(** [Series.pct_change()] as pandas before 3.0 computes it (the only
    versions that accept the resampling rule ['Q'] of the source): pad the
    missing values, then [data / data.shift(1) - 1]. *)
Definition pct_change (s : Series) : Series :=
  let data := ffill s in
  div_sub1 data (shift data).

(** [Series.cumsum()] with its default [skipna=True]: a missing value
    stays missing and adds nothing to the running sum; a running sum that
    becomes NaN (an infinity met by the opposite one) stays NaN. *)
Fixpoint cumsum_from (acc : F) (s : Series) : Series :=
  match s with
  | [] => []
  | None :: r => None :: cumsum_from acc r
  | Some x :: r => let acc' := acc + x in entry acc' :: cumsum_from acc' r
  end.

Definition cumsum (s : Series) : Series := cumsum_from n0 s.

(** [series * k]. *)
Definition scale (k : F) (s : Series) : Series :=
  map (fun x => match x with
                | Some v => entry (v * k)
                | None => None
                end) s.

(** [Series.dropna()]. *)
Fixpoint dropna (s : Series) : list F :=
  match s with
  | [] => []
  | None :: r => dropna r
  | Some x :: r => if nisnan x then dropna r else x :: dropna r
  end.

(** The [Returns] column of [plot_performance_chart]:
    [data['Close'].pct_change().cumsum() * 100]; a close that is NaN is a
    missing close. *)
Definition Returns (closes : list F) : Series :=
  scale n100 (cumsum (pct_change (map entry closes))).

End Series.

Arguments Series F : clear implicits.

(** ** Exceptions and the object state

    A method receives the object it is called on and hands it back with its
    result; [Raise] is a Python exception leaving the method. *)

Inductive exn : Type :=
| KeyError (key : string)
| TypeError (message : string)
| AttributeError (message : string).

Inductive result (A : Type) : Type :=
| Ok (a : A)
| Raise (e : exn).

Arguments Ok {A} a.
Arguments Raise {A} e.

Definition M (S A : Type) : Type := S -> result A * S.

Definition ret {S A : Type} (a : A) : M S A := fun s => (Ok a, s).

Definition bind {S A B : Type} (m : M S A) (k : A -> M S B) : M S B :=
  fun s =>
    match m s with
    | (Ok a, s') => k a s'
    | (Raise e, s') => (Raise e, s')
    end.

Definition raise {S A : Type} (e : exn) : M S A := fun s => (Raise e, s).

Definition get {S : Type} : M S S := fun s => (Ok s, s).

Definition put {S : Type} (s : S) : M S unit := fun _ => (Ok tt, s).

Notation "x <- m ;; k" := (bind m (fun x => k))
  (at level 61, m at next level, right associativity).
Notation "m ;;; k" := (bind m (fun _ => k))
  (at level 61, right associativity).

(** A [for] statement whose body updates the local variables [acc]. *)
Fixpoint for_loop {S A B : Type}
    (xs : list A) (body : B -> A -> M S B) (acc : B) : M S B :=
  match xs with
  | [] => ret acc
  | x :: r => acc' <- body acc x ;; for_loop r body acc'
  end.

(** The value a computation returns, and the state it leaves. *)
Definition outcome {S A : Type} (m : M S A) (s : S) : result A := fst (m s).
Definition final {S A : Type} (m : M S A) (s : S) : S := snd (m s).

(** ** Python dictionaries from strings to strings *)

Definition dict : Type := list (string * string).

Definition keys (d : dict) : list string := map fst d.
Definition values (d : dict) : list string := map snd d.

(** [d.get(k)], [None] when the key is absent. *)
Fixpoint lookup (d : dict) (k : string) : option string :=
  match d with
  | [] => None
  | (k', v) :: r => if String.eqb k k' then Some v else lookup r k
  end.

(** [d.get(k, default)]. *)
Definition dict_get (d : dict) (k default : string) : string :=
  match lookup d k with
  | Some v => v
  | None => default
  end.

(** The lookup of [create_stock_dataframe],
    [self.company_dict.get(company, company)]: the symbol of a known display
    name, and any other identifier as it is. *)
Definition resolve (d : dict) (company : string) : string :=
  dict_get d company company.

(** [d[k]], which raises [KeyError] when the key is absent. *)
Definition getitem {S : Type} (d : dict) (k : string) : M S string :=
  match lookup d k with
  | Some v => ret v
  | None => raise (KeyError k)
  end.

(** [d[k] = v]: a present key keeps its place, a new key goes last. *)
Fixpoint setitem (d : dict) (k v : string) : dict :=
  match d with
  | [] => [(k, v)]
  | (k', v') :: r =>
      if String.eqb k k' then (k', v) :: r else (k', v') :: setitem r k v
  end.

(** [x in xs] on strings. *)
Definition mem (x : string) (xs : list string) : bool :=
  existsb (String.eqb x) xs.

(** [str.upper()] on a text of ASCII characters, which ticker symbols
    are: the letters a to z become A to Z.  Strings are strings of bytes
    here; on a text with other characters [str.upper] follows the Unicode
    case mapping, which this function does not. *)
Definition upper_ascii (c : ascii) : ascii :=
  let n := nat_of_ascii c in
  if andb (Nat.leb 97 n) (Nat.leb n 122) then ascii_of_nat (n - 32) else c.

Fixpoint upper (s : string) : string :=
  match s with
  | EmptyString => EmptyString
  | String c r => String (upper_ascii c) (upper r)
  end.

(** ** Dates, quarters and [strftime] *)

Record date : Type := { year : Z; month : Z; day : Z }.

(** Quarters are counted from year 0: quarter [k] is quarter
    [k mod 4 + 1] of year [k / 4]. *)
Definition quarter_index (d : date) : Z := (year d * 4 + (month d - 1) / 3)%Z.

Definition quarter_of (d : date) : Z := ((month d - 1) / 3 + 1)%Z.

(** The last day of quarter [k], the label pandas gives the bin. *)
Definition quarter_end (k : Z) : date :=
  let m := (3 * (k mod 4) + 3)%Z in
  {| year := (k / 4)%Z;
     month := m;
     day := if orb (Z.eqb m 3) (Z.eqb m 12) then 31%Z else 30%Z |}.

Definition decimal (z : Z) : string := NilZero.string_of_int (Z.to_int z).

(** [datetime.strftime] as CPython on glibc answers: [%Y] is the year,
    [%m] and [%d] the month and day on two digits, [%%] a percent sign,
    and a conversion the C library does not know is copied as it stands. *)
Definition two_digits (z : Z) : string :=
  if Z.ltb z 10 then String "0" (decimal z) else decimal z.

Fixpoint strftime (fmt : string) (d : date) : string :=
  match fmt with
  | EmptyString => EmptyString
  | String "%" (String c r) =>
      let rest := strftime r d in
      if Ascii.eqb c "Y" then decimal (year d) ++ rest
      else if Ascii.eqb c "m" then two_digits (month d) ++ rest
      else if Ascii.eqb c "d" then two_digits (day d) ++ rest
      else if Ascii.eqb c "%" then String "%" rest
      else String "%" (String c rest)
  | String c r => String c (strftime r d)
  end%string.

(** [Period.strftime] of pandas, which adds the directive [%q], the
    quarter of the period; it is the reading under which the format of the
    source yields the labels the documentation of the chart speaks of. *)
Fixpoint period_strftime (fmt : string) (d : date) : string :=
  match fmt with
  | EmptyString => EmptyString
  | String "%" (String c r) =>
      let rest := period_strftime r d in
      if Ascii.eqb c "Y" then decimal (year d) ++ rest
      else if Ascii.eqb c "q" then decimal (quarter_of d) ++ rest
      else if Ascii.eqb c "m" then two_digits (month d) ++ rest
      else if Ascii.eqb c "d" then two_digits (day d) ++ rest
      else if Ascii.eqb c "%" then String "%" rest
      else String "%" (String c rest)
  | String c r => String c (period_strftime r d)
  end%string.

(** ** The Yahoo Finance client

    [yf.Ticker(t).history(period=...)] is a DataFrame of sessions, oldest
    first; [yf.Ticker(t).info] is a dictionary of which the source reads the
    keys ['longName'] and ['marketCap']; [yf.download] is the history of an
    index between two dates.

    The long name is a string when its key is there, [None] standing for an
    absent key.  The capitalisation is a number when its key is there, or
    the key is there holding Python's [None], which the source then
    divides: the three cases are kept apart. *)

Inductive field (A : Type) : Type :=
| Absent
| Null
| Value (a : A).

Arguments Absent {A}.
Arguments Null {A}.
Arguments Value {A} a.

Inductive period : Type := P1d | P1y.

Record PricePoint (F : Type) : Type := {
  timestamp : date;
  p_open : F;
  p_high : F;
  p_low : F;
  p_close : F
}.

Record Info (F : Type) : Type := {
  longName : option string;
  marketCap : field F
}.

Record YFinance (F : Type) : Type := {
  history : string -> period -> list (PricePoint F);
  info : string -> Info F;
  download : string -> date -> date -> list (PricePoint F)
}.

(** ** Figures handed to the charting library *)

Record StockRow (F : Type) : Type := {
  Company : string;
  Ticker : string;
  Current_Price : F;
  Opening_Price : F;
  Price_Change : F
}.

(** A row of the table; the price is shown with two decimals, a rendering
    that is left to the f-string of the source. *)
Record TableRow (F : Type) : Type := {
  t_Ticker : string;
  t_Price : F;
  t_Status : string
}.

Inductive Trace (F : Type) : Type :=
| Table (header : list string) (cells : list (TableRow F))
        (colors : list string)
| Pie (labels : list string) (pie_values : list F)
| Scatter (x : list date) (y : list (option F))
| Waterfall (x : list string) (y : list F)
| Candlestick (x : list date) (o h l c : list F).

Record Figure (F : Type) : Type := {
  traces : list (Trace F);
  title : string
}.

(** [go.Figure()]. *)
Definition empty_figure {F : Type} : Figure F :=
  {| traces := []; title := "" |}.

(** The bars the charting library draws for a trace given by two columns:
    it pairs the columns place by place and stops at the shorter one. *)
Definition points {F : Type} (t : Trace F) : list (string * F) :=
  match t with
  | Waterfall x y => combine x y
  | Pie labels vs => combine labels vs
  | _ => []
  end.

Definition figure_points {F : Type} (f : Figure F) : list (string * F) :=
  flat_map points (traces f).

(** ** Resampling by calendar quarter *)

Section Resample.
Context {F : Type} `{Number F}.

(** A Series with a DatetimeIndex. *)
Definition TimeSeries : Type := list (date * option F).

Definition index (s : TimeSeries) : list date := map fst s.
Definition series_values (s : TimeSeries) : list (option F) := map snd s.

(** The last value of the sessions of quarter [k] that is not NaN,
    missing when the quarter holds no such session. *)
Definition last_in_quarter (k : Z) (s : list (date * F)) : option F :=
  fold_left
    (fun acc dv =>
       if Z.eqb (quarter_index (fst dv)) k
       then match entry (snd dv) with
            | Some v => Some v
            | None => acc
            end
       else acc)
    s None.

Definition quarters_between (lo hi : Z) : list Z :=
  map (fun i => (lo + Z.of_nat i)%Z) (seq 0 (Z.to_nat (hi - lo + 1))).

(** [series.resample('Q').last()]: one bin per calendar quarter from the
    quarter of the earliest session to the quarter of the latest, labelled by
    the last day of the quarter. *)
Definition resample_Q_last (s : list (date * F)) : TimeSeries :=
  match map (fun dv => quarter_index (fst dv)) s with
  | [] => []
  | k :: ks =>
      let lo := fold_left Z.min ks k in
      let hi := fold_left Z.max ks k in
      map (fun q => (quarter_end q, last_in_quarter q s)) (quarters_between lo hi)
  end.

End Resample.

(** ** [class DumbergAPI] *)

Record DumbergAPI : Type := { company_dict : dict }.

(** [DumbergAPI.__init__]. *)
Definition init : DumbergAPI :=
  {| company_dict :=
       [ ("Apple Inc.", "AAPL");
         ("Microsoft Corp.", "MSFT");
         ("Alphabet Inc. (Google)", "GOOGL");
         ("Amazon.com Inc.", "AMZN");
         ("NVIDIA Corporation", "NVDA");
         ("Tesla Inc.", "TSLA");
         ("Berkshire Hathaway Inc.", "BRK-B");
         ("Meta Platforms Inc. (Facebook)", "META");
         ("Taiwan Semiconductor Manufacturing Company", "TSM");
         ("Johnson & Johnson", "JNJ") ]%string |}.

Section Methods.
Context {F : Type} `{Number F}.
Variable yf : YFinance F.

(** What [DatetimeIndex.strftime] dispatches to: the formatter of the
    platform, [strftime] above for CPython on glibc. *)
Variable index_strftime : string -> date -> string.

Local Open Scope num_scope.
Local Open Scope string_scope.
Local Open Scope list_scope.

Definition Self : Type -> Type := M DumbergAPI.

Definition fetch_stock_data (ticker : string) : Self (option F * option F) :=
  let data := history yf ticker P1d in
  match data with
  | p :: _ => ret (Some (p_close p), Some (p_open p))
  | [] => ret (None, None)
  end.

Definition create_stock_dataframe (tickers : list string)
  : Self (list (StockRow F)) :=
  tickers <- match tickers with
             | [] => self <- get ;; ret (keys (company_dict self))
             | _ :: _ => ret tickers
             end ;;
  for_loop tickers
    (fun rows company =>
       self <- get ;;
       let ticker := resolve (company_dict self) company in
       prices <- fetch_stock_data ticker ;;
       match prices with
       | (Some current_price, Some opening_price) =>
           let price_change := current_price - opening_price in
           ret (rows ++ [ {| Company := company;
                             Ticker := ticker;
                             Current_Price := current_price;
                             Opening_Price := opening_price;
                             Price_Change := price_change |} ])
       | _ => ret rows
       end)
    [].

Definition create_stock_table (stock_df : list (StockRow F))
  : Self (Figure F) :=
  rc <- for_loop stock_df
          (fun (rc : list (TableRow F) * list string) row =>
             let status :=
               if Current_Price row >? Opening_Price row then "Up" else "Down" in
             let color :=
               if String.eqb status "Up" then "#4af6c3" else "#ff433d" in
             ret (fst rc ++ [ {| t_Ticker := Ticker row;
                                 t_Price := Current_Price row;
                                 t_Status := status |} ],
                  snd rc ++ [color]))
          ([], []) ;;
  let columns :=
    match fst rc with
    | [] => []
    | _ :: _ => ["Ticker"; "Price"; "Status"]
    end in
  ret {| traces := [Table columns (fst rc) (snd rc)]; title := "" |}.

(** The loop of [plot_donut_chart] that fills [market_caps]:
    [stock.info.get('marketCap', 0) / 1e9], where the default stands in for
    an absent key only and dividing [None] raises. *)
Definition market_caps_loop (tickers : list string) : Self (list F) :=
  for_loop tickers
    (fun market_caps ticker =>
       raw <- match marketCap (info yf ticker) with
              | Value cap => ret cap
              | Absent => ret n0
              | Null =>
                  raise (TypeError
                    "unsupported operand type(s) for /: 'NoneType' and 'float'")
              end ;;
       let market_cap := raw / n1e9 in
       ret (market_caps ++ [market_cap]))
    [].

Definition plot_donut_chart (selected_companies : list string)
  : Self (Figure F) :=
  tickers <- for_loop selected_companies
               (fun acc company =>
                  self <- get ;;
                  ticker <- getitem (company_dict self) company ;;
                  ret (acc ++ [ticker]))
               [] ;;
  market_caps <- market_caps_loop tickers ;;
  ret {| traces := [Pie tickers market_caps];
         title := "Market Cap Distribution" |}.

Definition plot_performance_chart (ticker : string) : Self (Figure F) :=
  let data := history yf ticker P1y in
  match data with
  | _ :: _ =>
      let returns := Returns (map (@p_close F) data) in
      let dates := map (@timestamp F) data in
      ret {| traces := [Scatter dates returns];
             title := (ticker ++ " Performance (Cumulative Returns)")%string |}
  | [] => ret empty_figure
  end.

(** The local [quarterly_changes] of [plot_waterfall_chart]:
    [data['Close'].resample('Q').last().pct_change() * 100]. *)
Definition quarterly_changes (data : list (PricePoint F)) : TimeSeries :=
  let quarterly_data :=
    resample_Q_last (map (fun p => (timestamp p, p_close p)) data) in
  combine (index quarterly_data)
          (scale n100 (pct_change (series_values quarterly_data))).

Definition plot_waterfall_chart (ticker : string) : Self (Figure F) :=
  let data := history yf ticker P1y in
  match data with
  | _ :: _ =>
      let quarterly_changes := quarterly_changes data in
      ret {| traces :=
               [Waterfall
                  (map (index_strftime "%Y-Q%q") (index quarterly_changes))
                  (dropna (series_values quarterly_changes))];
             title := (ticker ++ " Quarterly Performance")%string |}
  | [] => ret empty_figure
  end.

Definition plot_candlestick : Self (Figure F) :=
  let df := download yf "^GSPC"
              {| year := 2023; month := 1; day := 1 |}
              {| year := 2024; month := 12; day := 31 |} in
  ret {| traces := [Candlestick (map (@timestamp F) df)
                      (map (@p_open F) df) (map (@p_high F) df)
                      (map (@p_low F) df) (map (@p_close F) df)];
         title := "S&P 500 Stock Prices (2023-2024)" |}.

End Methods.

(** ** The callbacks of [dumberg.py]

    The module-level objects the callbacks read and write: the [api]
    instance, the options of the check-box group, the text of the ticker
    input and [pn.state.notifications].  The last is the notification area
    with the messages shown so far when notifications have been switched on
    ([pn.extension(notifications=True)]), and Python's [None] when they
    have not. *)

Record App : Type := {
  api : DumbergAPI;
  company_selector_options : list string;
  ticker_input_value : string;
  notifications : option (list string)
}.

Inductive Pane (F : Type) : Type :=
| Markdown (text : string)
| Plotly (fig : Figure F)
| Tabs (tabs : list (string * (Figure F * Figure F))).

Arguments Markdown {F} text.

(** A method call on the global [api]. *)
Definition on_api {A : Type} (m : M DumbergAPI A) : M App A :=
  fun app =>
    let r := m (api app) in
    (fst r,
     {| api := snd r;
        company_selector_options := company_selector_options app;
        ticker_input_value := ticker_input_value app;
        notifications := notifications app |}).

Definition InvalidTicker : string :=
  "Invalid Ticker: Unable to find company information.".

Section Callbacks.
Context {F : Type} `{Number F}.
Variable yf : YFinance F.
Variable index_strftime : string -> date -> string.

Local Open Scope string_scope.
Local Open Scope list_scope.

(** [add_ticker(event)].  Clearing the input at the end of the accepting
    branch fires the watcher once more, on the empty text, where the first
    test fails and nothing happens. *)
Definition add_ticker : M App unit :=
  app <- get ;;
  let new_ticker := upper (ticker_input_value app) in
  if andb (negb (String.eqb new_ticker ""))
          (negb (mem new_ticker (values (company_dict (api app)))))
  then
    let info := info yf new_ticker in
    match longName info with
    | Some company_name =>
        let d := setitem (company_dict (api app)) company_name new_ticker in
        put {| api := {| company_dict := d |};
               company_selector_options := keys d;
               ticker_input_value := "";
               notifications := notifications app |}
    | None =>
        match notifications app with
        | Some shown =>
            put {| api := api app;
                   company_selector_options := company_selector_options app;
                   ticker_input_value := ticker_input_value app;
                   notifications := Some (shown ++ [InvalidTicker]) |}
        | None =>
            raise (AttributeError
                     "'NoneType' object has no attribute 'error'")
        end
    end
  else ret tt.

(** The user leaves [text] in the ticker input, which fires the watcher. *)
Definition enter_ticker (text : string) : M App unit :=
  app <- get ;;
  put {| api := api app;
         company_selector_options := company_selector_options app;
         ticker_input_value := text;
         notifications := notifications app |} ;;;
  add_ticker.

Definition update_stock_table (selected : list string) : M App (Pane F) :=
  match selected with
  | _ :: _ =>
      stock_df <- on_api (create_stock_dataframe yf selected) ;;
      fig <- on_api (create_stock_table stock_df) ;;
      ret (Plotly fig)
  | [] => ret (Markdown "### Please select at least one company.")
  end.

Definition update_donut_chart (selected : list string) : M App (Pane F) :=
  match selected with
  | _ :: _ =>
      fig <- on_api (plot_donut_chart yf selected) ;;
      ret (Plotly fig)
  | [] =>
      ret (Markdown
             "### Please select at least one company to view market cap distribution.")
  end.

Definition update_performance_tabs (selected : list string)
  : M App (Pane F) :=
  match selected with
  | _ :: _ =>
      tabs <- for_loop selected
                (fun tabs ticker =>
                   app <- get ;;
                   full_ticker <- getitem (company_dict (api app)) ticker ;;
                   performance_chart <-
                     on_api (plot_performance_chart yf full_ticker) ;;
                   waterfall_chart <-
                     on_api (plot_waterfall_chart yf index_strftime full_ticker) ;;
                   ret (tabs ++ [(ticker, (performance_chart, waterfall_chart))]))
                [] ;;
      ret (Tabs tabs)
  | [] => ret (Markdown "### Select a stock to view performance.")
  end.

End Callbacks.

(** ** Vocabulary of the statements *)

(** A computation is read-only when it hands the state back as it got it,
    whether it returns or raises. *)
Definition read_only {S A : Type} (m : M S A) : Prop :=
  forall s, final m s = s.

Section Vocabulary.
Context {F : Type} `{Number F}.
Variable yf : YFinance F.

(** The fetch of a ticker succeeded when it returned a pair of prices. *)
Definition fetch_succeeded (self : DumbergAPI) (ticker : string) : bool :=
  match outcome (fetch_stock_data yf ticker) self with
  | Ok (Some _, Some _) => true
  | _ => false
  end.

(** The rows one identifier contributes: none when the fetch returned
    nothing, one otherwise. *)
Definition rows_of (self : DumbergAPI) (company : string)
  : list (StockRow F) :=
  let ticker := resolve (company_dict self) company in
  match history yf ticker P1d with
  | p :: _ =>
      [ {| Company := company;
           Ticker := ticker;
           Current_Price := p_close p;
           Opening_Price := p_open p;
           Price_Change := (p_close p - p_open p)%num |} ]
  | [] => []
  end.

(** What the loop appends for one ticker, when the division goes
    through. *)
Definition billions (ticker : string) : option F :=
  match marketCap (info yf ticker) with
  | Value cap => Some (cap / n1e9)%num
  | Absent => Some (n0 / n1e9)%num
  | Null => None
  end.

(** What the loop has appended when it is through with all tickers. *)
Fixpoint all_billions (tickers : list string) : option (list F) :=
  match tickers with
  | [] => Some []
  | ticker :: rest =>
      match billions ticker, all_billions rest with
      | Some market_cap, Some market_caps => Some (market_cap :: market_caps)
      | _, _ => None
      end
  end.

(** What [create_stock_table] shows for one row. *)
Definition status_of (row : StockRow F) : string :=
  if (Current_Price row >? Opening_Price row)%num then "Up" else "Down".

Definition shown_row (row : StockRow F) : TableRow F :=
  {| t_Ticker := Ticker row;
     t_Price := Current_Price row;
     t_Status := status_of row |}.

Definition color_of (row : StockRow F) : string :=
  if String.eqb (status_of row) "Up" then "#4af6c3" else "#ff433d".

(** A value of a Series that is not missing. *)
Definition present (x : option F) : Prop := x <> None.

End Vocabulary.

(** The first selected identifier the registry has no entry for. *)
Definition first_unknown (d : dict) (selected : list string) : option string :=
  find (fun company =>
          match lookup d company with
          | Some _ => false
          | None => true
          end)
       selected.

(** The entries of a Series that are not missing, with their index. *)
Fixpoint defined_entries {F : Type} (s : list (date * option F))
  : list (date * F) :=
  match s with
  | [] => []
  | (d, Some v) :: r => (d, v) :: defined_entries r
  | (_, None) :: r => defined_entries r
  end.

Definition Q4_2023 : date := {| year := 2023; month := 12; day := 31 |}.
Definition Q1_2024 : date := {| year := 2024; month := 3; day := 31 |}.
Definition Q2_2024 : date := {| year := 2024; month := 6; day := 30 |}.

(** ** Sample data *)

(** What Python says when [None] is divided by a float. *)
Definition dividing_None : string :=
  "unsupported operand type(s) for /: 'NoneType' and 'float'".

(** A source whose profiles hold the key ['marketCap'] with [None]. *)
Definition null_caps {F : Type} : YFinance F :=
  {| history := fun _ _ => [];
     info := fun _ => {| longName := None; marketCap := Null |};
     download := fun _ _ _ => [] |}.

(** The application as it would be loaded with the notifications
    switched on. *)
Definition start_notifying : App :=
  {| api := init;
     company_selector_options := keys (company_dict init);
     ticker_input_value := "";
     notifications := Some [] |}.

(** A source that can describe no symbol, and one that knows Netflix. *)
Definition no_profile {F : Type} : YFinance F :=
  {| history := fun _ _ => [];
     info := fun _ => {| longName := None; marketCap := Absent |};
     download := fun _ _ _ => [] |}.

Definition knows_netflix {F : Type} : YFinance F :=
  {| history := fun _ _ => [];
     info := fun ticker =>
               if String.eqb ticker "NFLX"
               then {| longName := Some "Netflix, Inc."%string;
                       marketCap := Absent |}
               else {| longName := None; marketCap := Absent |};
     download := fun _ _ _ => [] |}.

(** A session whose four prices are the closing price. *)
Definition session {F : Type} (y m d : Z) (close : F) : PricePoint F :=
  {| timestamp := {| year := y; month := m; day := d |};
     p_open := close; p_high := close; p_low := close; p_close := close |}.

(** A source whose one-year history has a last session in each of three
    consecutive quarters. *)
Definition three_quarters {F : Type} (c1 c2 c3 : F) : YFinance F :=
  {| history := fun _ per =>
                  match per with
                  | P1y => [session 2023 12 29 c1; session 2024 3 28 c2;
                            session 2024 6 28 c3]
                  | P1d => []
                  end;
     info := fun _ => {| longName := None; marketCap := Absent |};
     download := fun _ _ _ => [] |}.

(** The state of the application when the module has been loaded.  The
    module calls [pn.extension('plotly')] and nothing else switches the
    notifications on. *)
Definition start : App :=
  {| api := init;
     company_selector_options := keys (company_dict init);
     ticker_input_value := "";
     notifications := None |}.

(** ** Vocabulary of the further statements *)

(** The change from each value of a list to the next, [b / a - 1]. *)
Fixpoint pairwise_changes {F : Type} `{Number F} (l : list F) : list F :=
  match l with
  | a :: (b :: _) as r => (b / a - n1)%num :: pairwise_changes r
  | _ => []
  end.

(** The sums [acc + x1], [acc + x1 + x2], ... *)
Fixpoint running_sums {F : Type} `{Number F} (acc : F) (l : list F) : list F :=
  match l with
  | [] => []
  | x :: r => (acc + x)%num :: running_sums (acc + x)%num r
  end.

(** Every price is higher than the one before, starting above [prev]. *)
Fixpoint rising (prev : Q) (l : list Q) : Prop :=
  match l with
  | [] => True
  | x :: r => prev < x /\ rising x r
  end.

(** The application with [text] left in the ticker input. *)
Definition with_input (app : App) (text : string) : App :=
  {| api := api app;
     company_selector_options := company_selector_options app;
     ticker_input_value := text;
     notifications := notifications app |}.

(** The states the application can be in: the state after loading, and
    the state any callback leaves, fired on any text or selection and
    with any answer of the data source. *)
Inductive reachable {F : Type} `{Number F} : App -> Prop :=
| reach_start : reachable start
| reach_add_ticker (yf : YFinance F) (text : string) (app : App) :
    reachable app -> reachable (final (enter_ticker yf text) app)
| reach_stock_table (yf : YFinance F) (selected : list string) (app : App) :
    reachable app ->
    reachable (final (update_stock_table yf selected) app)
| reach_donut_chart (yf : YFinance F) (selected : list string) (app : App) :
    reachable app ->
    reachable (final (update_donut_chart yf selected) app)
| reach_performance_tabs (yf : YFinance F)
    (index_strftime : string -> date -> string)
    (selected : list string) (app : App) :
    reachable app ->
    reachable (final (update_performance_tabs yf index_strftime selected) app).

(** A source that names the symbol GOOG as a company the registry
    already holds under another symbol. *)
Definition knows_goog {F : Type} : YFinance F :=
  {| history := fun _ _ => [];
     info := fun ticker =>
               if String.eqb ticker "GOOG"
               then {| longName := Some "Alphabet Inc. (Google)"%string;
                       marketCap := Absent |}
               else {| longName := None; marketCap := Absent |};
     download := fun _ _ _ => [] |}.

(** The two charts of the tab of one ticker. *)
Definition tab_charts {F : Type} `{Number F} (yf : YFinance F)
    (index_strftime : string -> date -> string)
    (self : DumbergAPI) (ticker : string)
    (charts : Figure F * Figure F) : Prop :=
  outcome (plot_performance_chart yf ticker) self = Ok (fst charts)
  /\ outcome (plot_waterfall_chart yf index_strftime ticker) self
     = Ok (snd charts).

(** A source that has today's session for AAPL only, opened at [o] and
    closed at [c]. *)
Definition only_apple {F : Type} (o c : F) : YFinance F :=
  {| history := fun ticker per =>
                  match per with
                  | P1d =>
                      if String.eqb ticker "AAPL"
                      then [ {| timestamp :=
                                  {| year := 2024; month := 6; day := 28 |};
                                p_open := o; p_high := c;
                                p_low := o; p_close := c |} ]
                      else []
                  | P1y => []
                  end;
     info := fun _ => {| longName := None; marketCap := Absent |};
     download := fun _ _ _ => [] |}.

(** A source whose one-year history lies within the second quarter of
    2024. *)
Definition one_quarter {F : Type} (c1 c2 : F) : YFinance F :=
  {| history := fun _ per =>
                  match per with
                  | P1y => [session 2024 4 2 c1; session 2024 6 28 c2]
                  | P1d => []
                  end;
     info := fun _ => {| longName := None; marketCap := Absent |};
     download := fun _ _ _ => [] |}.

(** A text made of ASCII characters only. *)
Fixpoint ascii_text (s : string) : bool :=
  match s with
  | EmptyString => true
  | String c r => andb (Nat.ltb (nat_of_ascii c) 128) (ascii_text r)
  end.

(** A source that reports the capitalisation [cap] for AAPL and no
    capitalisation key for any other ticker. *)
Definition cap_of_apple {F : Type} (cap : F) : YFinance F :=
  {| history := fun _ _ => [];
     info := fun ticker =>
               if String.eqb ticker "AAPL"
               then {| longName := Some "Apple Inc."%string;
                       marketCap := Value cap |}
               else {| longName := None; marketCap := Absent |};
     download := fun _ _ _ => [] |}.

(** * Properties *)

(** ** Cumulative returns *)

Section ReturnsFacts.
Context {F : Type} `{Number F}.

Lemma ffill_from_present (prev : option F) (l : list F) :
  ffill_from prev (map Some l) = map Some l.
Proof.
  revert prev; induction l as [|a l IH]; intro prev; simpl.
  - reflexivity.
  - now rewrite IH.
Qed.

Lemma div_sub1_length (a b : Series F) :
  length b = length a -> length (div_sub1 a b) = length a.
Proof.
  revert b; induction a as [|x a IH]; intros [|y b] E; simpl in *;
    try discriminate; try reflexivity.
  destruct x, y; simpl; f_equal; apply IH; congruence.
Qed.

Lemma removelast_cons_length (A : Type) (x : A) (l : list A) :
  length (removelast (x :: l)) = length l.
Proof.
  revert x; induction l as [|y l IH]; intro x; [reflexivity|].
  change (removelast (x :: y :: l)) with (x :: removelast (y :: l)).
  cbn [length]. f_equal. apply IH.
Qed.

Lemma shift_length (s : Series F) : length (shift s) = length s.
Proof.
  destruct s as [|x s]; [reflexivity|].
  unfold shift. cbn [length]. f_equal. apply removelast_cons_length.
Qed.

Lemma ffill_from_length (prev : option F) (s : Series F) :
  length (ffill_from prev s) = length s.
Proof.
  revert prev; induction s as [|x s IH]; intro prev; simpl; [reflexivity|].
  now rewrite IH.
Qed.

Lemma pct_change_length (s : Series F) : length (pct_change s) = length s.
Proof.
  unfold pct_change. cbv zeta.
  rewrite div_sub1_length; unfold ffill.
  - apply ffill_from_length.
  - apply shift_length.
Qed.

Lemma cumsum_from_length (acc : F) (s : Series F) :
  length (cumsum_from acc s) = length s.
Proof.
  revert acc; induction s as [|[x|] s IH]; intro acc; simpl;
    [reflexivity| |]; now rewrite IH.
Qed.

(** The column has one entry per session: the undefined first change is
    kept as a missing entry, it is not removed. *)
Lemma Returns_length (closes : list F) :
  length (Returns closes) = length closes.
Proof.
  unfold Returns, scale, cumsum.
  rewrite length_map, cumsum_from_length, pct_change_length, length_map.
  reflexivity.
Qed.

Lemma pct_change_first_missing (x : option F) (s : Series F) :
  exists changes,
    pct_change (x :: s) = None :: changes /\ length changes = length s.
Proof.
  pose proof (pct_change_length (x :: s)) as L.
  unfold pct_change, ffill in *. cbv zeta in *. cbn [ffill_from] in *.
  unfold shift in *. cbn [div_sub1] in *.
  set (v := match x with Some _ => x | None => None end) in *.
  replace (match v with Some _ => None | None => None end)
    with (@None F) in * by (now destruct v).
  eexists. split; [reflexivity|].
  cbn [length] in L. now injection L.
Qed.

Lemma Returns_first_missing (c : F) (closes : list F) :
  nth_error (Returns (c :: closes)) 0 = Some None.
Proof.
  unfold Returns. cbn [map].
  destruct (pct_change_first_missing (entry c) (map entry closes))
    as [changes [E _]].
  rewrite E. reflexivity.
Qed.

Lemma Returns_head_missing (c : F) (closes : list F) :
  hd_error (Returns (c :: closes)) = Some None.
Proof.
  unfold Returns. cbn [map].
  destruct (pct_change_first_missing (entry c) (map entry closes))
    as [changes [E _]].
  rewrite E. reflexivity.
Qed.

End ReturnsFacts.

(** C1, as stated, fails: on the closes 100, 110, 121 the third entry of the
    [Returns] column is not 21, neither in exact arithmetic nor in binary64. *)
Lemma Returns_sample_is_not_21 :
  ~ (exists v : Q,
        nth_error (Returns [100; 110; 121]%Q) 2 = Some (Some v) /\ v == 21)
  /\ ~ (exists v : float,
          nth_error (Returns [100; 110; 121]%float) 2 = Some (Some v)
          /\ PrimFloat.eqb v 21 = true).
Proof.
  split; intros [v [E Hv]]; vm_compute in E; injection E as <-.
  - vm_compute in Hv. discriminate.
  - vm_compute in Hv. discriminate.
Qed.

(** C1, amended: on the closes 100, 110, 121 the third entry of the
    [Returns] column is [((110/100 - 1) + (121/110 - 1)) * 100], which is
    20 in exact arithmetic (the sum of two changes of ten percent);
    binary64 evaluates the same expression to 0x1.4000000000005p+4, that
    is 20.000000000000018. *)
Theorem Returns_sample_is_20 :
  (exists v : Q,
      nth_error (Returns [100; 110; 121]%Q) 2 = Some (Some v)
      /\ v == ((110 / 100 - 1) + (121 / 110 - 1)) * 100
      /\ v == 20)
  /\ nth_error (Returns [100; 110; 121]%float) 2
     = Some (Some (((110 / 100 - 1) + (121 / 110 - 1)) * 100)%float)
  /\ (((110 / 100 - 1) + (121 / 110 - 1)) * 100)%float
     = 0x1.4000000000005p+4%float.
Proof.
  split; [|split].
  - eexists. split; [reflexivity|]. split; reflexivity.
  - vm_compute. reflexivity.
  - vm_compute. reflexivity.
Qed.

(** ** Loops and the frame of a computation *)

Lemma read_only_ret (S A : Type) (a : A) : read_only (@ret S A a).
Proof. intro s. reflexivity. Qed.

Lemma read_only_raise (S A : Type) (e : exn) : read_only (@raise S A e).
Proof. intro s. reflexivity. Qed.

Lemma read_only_get (S : Type) : read_only (@get S).
Proof. intro s. reflexivity. Qed.

Lemma read_only_bind (S A B : Type) (m : M S A) (k : A -> M S B) :
  read_only m -> (forall a, read_only (k a)) -> read_only (bind m k).
Proof.
  intros Hm Hk s. unfold final, bind.
  specialize (Hm s). unfold final in Hm.
  destruct (m s) as [[a|e] s']; simpl in Hm; subst s'.
  - apply Hk.
  - reflexivity.
Qed.

Lemma read_only_getitem (S : Type) (d : dict) (k : string) :
  read_only (@getitem S d k).
Proof.
  unfold getitem. destruct (lookup d k).
  - apply read_only_ret.
  - apply read_only_raise.
Qed.

Lemma read_only_for_loop (S A B : Type) (body : B -> A -> M S B) :
  (forall acc x, read_only (body acc x)) ->
  forall xs acc, read_only (for_loop xs body acc).
Proof.
  intros Hb xs. induction xs as [|x xs IH]; intro acc; simpl.
  - apply read_only_ret.
  - apply read_only_bind; [apply Hb | intro a; apply IH].
Qed.

Create HintDb frame.
#[export] Hint Resolve read_only_ret read_only_raise read_only_get
  read_only_getitem : frame.
(** A loop whose body appends to a list and neither raises nor touches the
    state is a [flat_map]. *)
Lemma for_loop_append (S A B : Type) (g : S -> A -> list B)
    (body : list B -> A -> M S (list B)) :
  (forall acc x s, body acc x s = (Ok (acc ++ g s x), s)) ->
  forall xs acc s,
    for_loop xs body acc s = (Ok (acc ++ flat_map (g s) xs), s).
Proof.
  intros Hb xs. induction xs as [|x xs IH]; intros acc s; simpl.
  - now rewrite app_nil_r.
  - unfold bind. rewrite Hb, IH, <- app_assoc. reflexivity.
Qed.

(** ** Ticker resolution *)

Lemma lookup_keys (d : dict) (k : string) :
  In k (keys d) <-> lookup d k <> None.
Proof.
  induction d as [|[k' v] d IH]; simpl.
  - split; [tauto | congruence].
  - destruct (String.eqb_spec k k') as [->|N].
    + split; [congruence | auto].
    + rewrite <- IH. split; [intros [E|I]; [congruence | exact I] | auto].
Qed.

Lemma lookup_In (d : dict) (k v : string) :
  NoDup (keys d) -> In (k, v) d -> lookup d k = Some v.
Proof.
  induction d as [|[k' v'] d IH]; simpl; intros ND I; [contradiction|].
  inversion ND as [|? ? Hnotin ND']; subst.
  destruct I as [E|I].
  - injection E as -> ->. now rewrite String.eqb_refl.
  - destruct (String.eqb_spec k k') as [->|N].
    + exfalso. apply Hnotin. change k' with (fst (k', v)). now apply in_map.
    + now apply IH.
Qed.

Lemma resolve_unknown (d : dict) (identifier : string) :
  ~ In identifier (keys d) -> resolve d identifier = identifier.
Proof.
  intro N. unfold resolve, dict_get.
  destruct (lookup d identifier) eqn:E; [|reflexivity].
  exfalso. apply N. apply lookup_keys. congruence.
Qed.

(** C8: in a registry (a dictionary, so its keys are distinct), [resolve]
    returns the registered symbol of a known display name and any other
    identifier unchanged; hence resolving again a result that is not itself
    a display name returns it unchanged. *)
Theorem resolve_idempotent (d : dict) (identifier : string) :
  NoDup (keys d) ->
  (forall symbol, In (identifier, symbol) d -> resolve d identifier = symbol)
  /\ (~ In identifier (keys d) -> resolve d identifier = identifier)
  /\ (~ In (resolve d identifier) (keys d) ->
      resolve d (resolve d identifier) = resolve d identifier).
Proof.
  intro ND. split; [|split].
  - intros symbol I. unfold resolve, dict_get.
    now rewrite (lookup_In d identifier symbol ND I).
  - apply resolve_unknown.
  - apply resolve_unknown.
Qed.

Lemma resolve_idempotent_witness :
  let d := [("Tesla Inc.", "TSLA"); ("Apple Inc.", "AAPL")]%string in
  NoDup (keys d)
  /\ resolve d "Tesla Inc." = "TSLA"%string
  /\ resolve d "TSLA" = "TSLA"%string
  /\ resolve d (resolve d "Tesla Inc.") = resolve d "Tesla Inc.".
Proof.
  intro d.
  assert (ND : NoDup (keys d)).
  { repeat constructor; simpl; intuition discriminate. }
  destruct (resolve_idempotent d "Tesla Inc." ND) as [Hknown [_ Hagain]].
  destruct (resolve_idempotent d "TSLA" ND) as [_ [Hunknown _]].
  split; [exact ND|].
  split; [apply Hknown; simpl; auto|].
  split; [apply Hunknown; simpl; intuition discriminate|].
  apply Hagain. simpl. intuition discriminate.
Defined.

(** Without the side condition the second lookup may move on: a symbol
    that is also a display name resolves to that name's symbol. *)
Example resolve_chain :
  let d := [("A", "B"); ("B", "C")]%string in
  resolve d "A" = "B"%string /\ resolve d (resolve d "A") = "C"%string.
Proof. split; reflexivity. Qed.

(** ** Stock records *)

Section StockRecords.
Context {F : Type} `{Number F}.
Variable yf : YFinance F.

Lemma create_stock_dataframe_selected (tickers : list string)
    (self : DumbergAPI) :
  tickers <> [] ->
  create_stock_dataframe yf tickers self
  = (Ok (flat_map (rows_of yf self) tickers), self).
Proof.
  intro NE. unfold create_stock_dataframe.
  destruct tickers as [|t ts]; [congruence|].
  unfold bind at 1. unfold ret at 1.
  rewrite (for_loop_append (rows_of yf)); [reflexivity|].
  intros acc x s. unfold bind, get, fetch_stock_data, rows_of.
  destruct (history yf (resolve (company_dict s) x) P1d);
    [rewrite app_nil_r|]; reflexivity.
Qed.

Lemma create_stock_dataframe_all (self : DumbergAPI) :
  create_stock_dataframe yf [] self
  = (Ok (flat_map (rows_of yf self) (keys (company_dict self))), self).
Proof.
  unfold create_stock_dataframe.
  unfold bind at 1 2. unfold get at 1. unfold ret at 1. cbv beta iota.
  rewrite (for_loop_append (rows_of yf)); [reflexivity|].
  intros acc x s. unfold bind, get, fetch_stock_data, rows_of.
  destruct (history yf (resolve (company_dict s) x) P1d);
    [rewrite app_nil_r|]; reflexivity.
Qed.

(** Building the records never raises. *)
Lemma create_stock_dataframe_returns (tickers : list string)
    (self : DumbergAPI) :
  exists df, create_stock_dataframe yf tickers self = (Ok df, self).
Proof.
  destruct tickers as [|t ts].
  - eexists. apply create_stock_dataframe_all.
  - eexists. apply create_stock_dataframe_selected. discriminate.
Qed.

Lemma Company_rows_of (self : DumbergAPI) (companies : list string) :
  map (@Company F) (flat_map (rows_of yf self) companies)
  = filter
      (fun company =>
         fetch_succeeded yf self (resolve (company_dict self) company))
      companies.
Proof.
  induction companies as [|c cs IH]; [reflexivity|].
  cbn [flat_map filter]. rewrite map_app, IH.
  unfold rows_of at 1, fetch_succeeded at 2, outcome, fetch_stock_data.
  destruct (history yf (resolve (company_dict self) c) P1d); reflexivity.
Qed.

(** C3: called with no identifier, [create_stock_dataframe] does what it
    does when called with every display name of the registry, in the order
    of the registry; it returns one record for each registered company
    whose fetch succeeded, and so as many records as there are such
    companies: one per entry of the registry when every fetch succeeds. *)
Theorem create_stock_dataframe_empty_selection (self : DumbergAPI) :
  let registered := keys (company_dict self) in
  let fetched company :=
    fetch_succeeded yf self (resolve (company_dict self) company) in
  exists df,
    create_stock_dataframe yf [] self = (Ok df, self)
    /\ (registered = [] \/
        create_stock_dataframe yf registered self = (Ok df, self))
    /\ map (@Company F) df = filter fetched registered
    /\ length df = length (filter fetched registered)
    /\ (forallb fetched registered = true -> length df = length registered).
Proof.
  intros registered fetched.
  exists (flat_map (rows_of yf self) registered).
  assert (E : map (@Company F) (flat_map (rows_of yf self) registered)
              = filter fetched registered) by apply Company_rows_of.
  split; [apply create_stock_dataframe_all|].
  split.
  - destruct registered as [|r rs] eqn:R; [now left|right].
    apply create_stock_dataframe_selected. discriminate.
  - split; [exact E|].
    assert (L : length (flat_map (rows_of yf self) registered)
                = length (filter fetched registered)).
    { rewrite <- E. now rewrite length_map. }
    split; [exact L|].
    intro All. rewrite L. clear - All.
    induction registered as [|c cs IH]; [reflexivity|].
    cbn [forallb] in All. apply andb_prop in All as [Hc Hcs].
    cbn [filter]. rewrite Hc. cbn [length]. now rewrite IH.
Qed.

End StockRecords.

(** ** The stock table *)

Section StockTable.
Context {F : Type} `{Number F}.

Lemma create_stock_table_cells (stock_df : list (StockRow F))
    (self : DumbergAPI) :
  exists header,
    create_stock_table stock_df self
    = (Ok {| traces := [Table header (map shown_row stock_df)
                          (map color_of stock_df)];
             title := "" |}, self).
Proof.
  unfold create_stock_table.
  set (body := fun (rc : list (TableRow F) * list string) row => _).
  assert (L : forall xs rows colors s,
             for_loop xs body (rows, colors) s
             = (Ok (rows ++ map shown_row xs, colors ++ map color_of xs), s)).
  { induction xs as [|x xs IH]; intros rows colors s; simpl.
    - now rewrite !app_nil_r.
    - unfold bind. unfold body at 1. unfold ret at 1. cbn [fst snd].
      rewrite IH, <- !app_assoc. reflexivity. }
  unfold bind. rewrite L. cbn [fst snd app]. eexists. reflexivity.
Qed.

End StockTable.

Lemma Up_iff_positive_change (current opening : Q) :
  ngt current opening = true <-> 0 < current - opening.
Proof.
  cbn [ngt Q_Number]. rewrite negb_true_iff.
  rewrite <- not_true_iff_false, Qle_bool_iff.
  unfold Qminus. rewrite <- Qlt_minus_iff.
  split; [apply Qnot_le_lt | apply Qlt_not_le].
Qed.

Lemma rows_of_Price_Change (yf : YFinance Q) (self : DumbergAPI)
    (companies : list string) :
  Forall (fun row => Price_Change row = Current_Price row - Opening_Price row)
         (flat_map (rows_of yf self) companies).
Proof.
  induction companies as [|c cs IH]; [constructor|].
  cbn [flat_map]. apply Forall_app. split; [|exact IH].
  unfold rows_of. destruct (history yf _ P1d); repeat constructor.
Qed.

(** C2: every row [create_stock_dataframe] builds has its price change equal
    to the current price minus the opening price, and the row
    [create_stock_table] shows for it is classified "Up" exactly when that
    change is strictly positive, and "Down" otherwise. *)
Theorem stock_row_delta_and_status (yf : YFinance Q) (self : DumbergAPI)
    (tickers : list string) :
  exists df header cells colors,
    outcome (create_stock_dataframe yf tickers) self = Ok df
    /\ outcome (create_stock_table df) self
       = Ok {| traces := [Table header cells colors]; title := "" |}
    /\ Forall2
         (fun row shown =>
            Price_Change row = Current_Price row - Opening_Price row
            /\ t_Ticker shown = Ticker row
            /\ (t_Status shown = "Up"%string <-> 0 < Price_Change row)
            /\ (t_Status shown = "Down"%string <-> ~ 0 < Price_Change row))
         df cells.
Proof.
  assert (D : exists companies,
             create_stock_dataframe yf tickers self
             = (Ok (flat_map (rows_of yf self) companies), self)).
  { destruct tickers as [|t ts].
    - eexists. apply create_stock_dataframe_all.
    - eexists. apply create_stock_dataframe_selected. discriminate. }
  destruct D as [companies D].
  pose proof (rows_of_Price_Change yf self companies) as P.
  set (df := flat_map (rows_of yf self) companies) in *.
  destruct (create_stock_table_cells df self) as [header T].
  exists df, header, (map shown_row df), (map color_of df).
  unfold outcome. rewrite D, T. split; [reflexivity|]. split; [reflexivity|].
  clearbody df. clear D T.
  induction P as [|row rows Hrow _ IH]; [constructor|].
  cbn [map]. constructor; [|exact IH].
  split; [exact Hrow|]. split; [reflexivity|].
  rewrite Hrow, <- Up_iff_positive_change.
  unfold shown_row, status_of. cbn [t_Status].
  destruct (ngt (Current_Price row) (Opening_Price row)).
  - split; split; auto; try discriminate. intros N. now elim N.
  - split; split; auto; discriminate.
Qed.

(** ** Market capitalisations *)

Section MarketCaps.
Context {F : Type} `{Number F}.
Variable yf : YFinance F.

Lemma flat_map_singleton (A B : Type) (f : A -> B) (l : list A) :
  flat_map (fun a => [f a]) l = map f l.
Proof. induction l as [|a l IH]; simpl; congruence. Qed.

Lemma market_caps_loop_from (tickers : list string) (acc : list F)
    (self : DumbergAPI) :
  for_loop tickers
    (fun market_caps ticker =>
       raw <- match marketCap (info yf ticker) with
              | Value cap => ret cap
              | Absent => ret n0
              | Null => raise (TypeError dividing_None)
              end ;;
       let market_cap := (raw / n1e9)%num in
       ret (market_caps ++ [market_cap]))
    acc self
  = match all_billions yf tickers with
    | Some market_caps => (Ok (acc ++ market_caps), self)
    | None => (Raise (TypeError dividing_None), self)
    end.
Proof.
  revert acc. induction tickers as [|t ts IH]; intro acc.
  - cbn. now rewrite app_nil_r.
  - cbn [for_loop all_billions]. unfold bind at 1 2. unfold billions at 1.
    destruct (marketCap (info yf t)) as [| |cap]; cbn.
    + rewrite IH. destruct (all_billions yf ts); [|reflexivity].
      now rewrite <- app_assoc.
    + reflexivity.
    + rewrite IH. destruct (all_billions yf ts); [|reflexivity].
      now rewrite <- app_assoc.
Qed.

Lemma market_caps_loop_run (tickers : list string) (self : DumbergAPI) :
  market_caps_loop yf tickers self
  = match all_billions yf tickers with
    | Some market_caps => (Ok market_caps, self)
    | None => (Raise (TypeError dividing_None), self)
    end.
Proof. unfold market_caps_loop. now rewrite market_caps_loop_from. Qed.

Lemma all_billions_without_None (tickers : list string) :
  Forall (fun ticker => marketCap (info yf ticker) <> Null) tickers ->
  exists market_caps,
    all_billions yf tickers = Some market_caps
    /\ Forall2
         (fun ticker market_cap =>
            match marketCap (info yf ticker) with
            | Value raw => market_cap = (raw / n1e9)%num
            | Absent => market_cap = (n0 / n1e9)%num
            | Null => False
            end)
         tickers market_caps.
Proof.
  induction 1 as [|t ts Ht _ [caps [E P]]].
  - exists []. split; [reflexivity | constructor].
  - cbn [all_billions]. rewrite E. unfold billions.
    destruct (marketCap (info yf t)) as [| |cap] eqn:M; [|congruence|].
    + eexists. split; [reflexivity|]. constructor; [|exact P].
      now rewrite M.
    + eexists. split; [reflexivity|]. constructor; [|exact P].
      now rewrite M.
Qed.

Lemma all_billions_with_None (tickers : list string) (ticker : string) :
  In ticker tickers -> marketCap (info yf ticker) = Null ->
  all_billions yf tickers = None.
Proof.
  induction tickers as [|t ts IH]; intros I M; [contradiction|].
  cbn [all_billions]. destruct I as [->|I].
  - unfold billions. now rewrite M.
  - rewrite (IH I M). now destruct (billions yf t).
Qed.

End MarketCaps.

(** In binary64 too an absent capitalisation comes out as zero. *)
Example missing_cap_float : (n0 / n1e9)%num = 0%float.
Proof. vm_compute. reflexivity. Qed.

(** C5 fails on the code: a profile that holds the key ['marketCap'] with
    the value [None] makes the loop of [plot_donut_chart] raise
    [TypeError], so that no capitalisation at all is returned, where the
    claim has the missing capitalisation mapped to 0; only the absent key
    is mapped to 0. *)
Theorem market_cap_None_raises_TypeError (F : Type) (N : Number F) :
  outcome (market_caps_loop (@null_caps F) ["AAPL"%string]) init
  = Raise (TypeError dividing_None)
  /\ outcome (plot_donut_chart (@null_caps F) ["Apple Inc."%string]) init
     = Raise (TypeError dividing_None)
  /\ outcome (update_donut_chart (@null_caps F) ["Apple Inc."%string]) start
     = Raise (TypeError dividing_None)
  /\ outcome (market_caps_loop (@no_profile F) ["AAPL"%string]) init
     = Ok [(n0 / n1e9)%num].
Proof. repeat split. Qed.

(** ** The registry is only written by ticker registration *)

Ltac frame_step :=
  match goal with
  | |- read_only (bind _ _) => apply read_only_bind; [ | intro ]
  | |- read_only (for_loop _ _ _) => apply read_only_for_loop; intros
  | |- read_only (match ?x with _ => _ end) => destruct x
  | |- read_only _ => solve [ auto with frame ]
  end.

Ltac frame := cbv zeta; repeat frame_step.

Section Frame.
Context {F : Type} `{Number F}.
Variable yf : YFinance F.
Variable index_strftime : string -> date -> string.

Lemma fetch_stock_data_read_only (ticker : string) :
  read_only (fetch_stock_data yf ticker).
Proof. unfold fetch_stock_data. frame. Qed.

Lemma create_stock_dataframe_read_only (tickers : list string) :
  read_only (create_stock_dataframe yf tickers).
Proof.
  unfold create_stock_dataframe. frame.
  apply fetch_stock_data_read_only.
Qed.

Lemma create_stock_table_read_only (stock_df : list (StockRow F)) :
  read_only (create_stock_table stock_df).
Proof. unfold create_stock_table. frame. Qed.

Lemma plot_donut_chart_read_only (selected : list string) :
  read_only (plot_donut_chart yf selected).
Proof. unfold plot_donut_chart, market_caps_loop. frame. Qed.

Lemma plot_performance_chart_read_only (ticker : string) :
  read_only (plot_performance_chart yf ticker).
Proof. unfold plot_performance_chart. frame. Qed.

Lemma plot_waterfall_chart_read_only (ticker : string) :
  read_only (plot_waterfall_chart yf index_strftime ticker).
Proof. unfold plot_waterfall_chart. frame. Qed.

Lemma plot_candlestick_read_only : read_only (plot_candlestick yf).
Proof. unfold plot_candlestick. frame. Qed.

(** A read-only method called on the global [api] leaves the whole
    application state as it was. *)
Lemma on_api_read_only (A : Type) (m : M DumbergAPI A) :
  read_only m -> read_only (on_api m).
Proof.
  intros Hm app. unfold final, on_api. cbn [snd].
  specialize (Hm (api app)). unfold final in Hm. rewrite Hm.
  destruct app; reflexivity.
Qed.

Lemma update_stock_table_read_only (selected : list string) :
  read_only (update_stock_table yf selected).
Proof.
  unfold update_stock_table. frame; apply on_api_read_only.
  - apply create_stock_dataframe_read_only.
  - apply create_stock_table_read_only.
Qed.

Lemma update_donut_chart_read_only (selected : list string) :
  read_only (update_donut_chart yf selected).
Proof.
  unfold update_donut_chart. frame; apply on_api_read_only.
  apply plot_donut_chart_read_only.
Qed.

Lemma update_performance_tabs_read_only (selected : list string) :
  read_only (update_performance_tabs yf index_strftime selected).
Proof.
  unfold update_performance_tabs. frame; apply on_api_read_only.
  - apply plot_performance_chart_read_only.
  - apply plot_waterfall_chart_read_only.
Qed.

End Frame.

(** C10: every read-only operation of the aggregation core hands the
    object back with [company_dict] as it was, for every input and whether
    it returns or raises; registering a ticker is the one operation that
    changes it. *)
Theorem read_only_operations_keep_company_dict
    (F : Type) (N : Number F) (yf : YFinance F)
    (index_strftime : string -> date -> string) (self : DumbergAPI) :
  (forall ticker,
      company_dict (final (fetch_stock_data yf ticker) self)
      = company_dict self)
  /\ (forall tickers,
         company_dict (final (create_stock_dataframe yf tickers) self)
         = company_dict self)
  /\ (forall stock_df : list (StockRow F),
         company_dict (final (create_stock_table stock_df) self)
         = company_dict self)
  /\ (forall selected,
         company_dict (final (plot_donut_chart yf selected) self)
         = company_dict self)
  /\ (forall ticker,
         company_dict (final (plot_performance_chart yf ticker) self)
         = company_dict self)
  /\ (forall ticker,
         company_dict
           (final (plot_waterfall_chart yf index_strftime ticker) self)
         = company_dict self)
  /\ company_dict (final (plot_candlestick yf) self) = company_dict self
  /\ company_dict (api (final (enter_ticker (@knows_netflix F) "nflx") start))
     = company_dict init ++ [("Netflix, Inc.", "NFLX")]%string.
Proof.
  repeat split; intros; try (f_equal;
    first [ apply fetch_stock_data_read_only
          | apply create_stock_dataframe_read_only
          | apply create_stock_table_read_only
          | apply plot_donut_chart_read_only
          | apply plot_performance_chart_read_only
          | apply plot_waterfall_chart_read_only
          | apply plot_candlestick_read_only ]).
Qed.

(** ** Registering a ticker *)

Lemma mem_In (x : string) (xs : list string) : mem x xs = true <-> In x xs.
Proof.
  unfold mem. rewrite existsb_exists. split.
  - intros [y [I E]]. apply String.eqb_eq in E. now subst.
  - intro I. exists x. split; [exact I | apply String.eqb_refl].
Qed.

Section Registration.
Context {F : Type} `{Number F}.
Variable yf : YFinance F.

(** Whatever the text, a symbol the source cannot name leaves the registry
    and the check-box options as they were. *)
Lemma add_ticker_unnamed_keeps_registry (app : App) (text : string) :
  longName (info yf (upper text)) = None ->
  api (final (enter_ticker yf text) app) = api app
  /\ company_selector_options (final (enter_ticker yf text) app)
     = company_selector_options app.
Proof.
  intro NoName.
  unfold final, enter_ticker, add_ticker, bind, get, put. cbn.
  destruct (negb (String.eqb (upper text) "")
            && negb (mem (upper text) (values (company_dict (api app))))).
  - rewrite NoName. destruct (notifications app); split; reflexivity.
  - split; reflexivity.
Qed.

(** The rejecting branch: where the notifications are switched on the
    message is shown, where they are not the call that should show it
    raises. *)
Lemma add_ticker_rejects (app : App) (text : string) :
  longName (info yf (upper text)) = None ->
  upper text <> ""%string ->
  ~ In (upper text) (values (company_dict (api app))) ->
  enter_ticker yf text app
  = match notifications app with
    | Some shown =>
        (Ok tt,
         {| api := api app;
            company_selector_options := company_selector_options app;
            ticker_input_value := text;
            notifications := Some (shown ++ [InvalidTicker]) |})
    | None =>
        (Raise (AttributeError "'NoneType' object has no attribute 'error'"),
         {| api := api app;
            company_selector_options := company_selector_options app;
            ticker_input_value := text;
            notifications := None |})
    end.
Proof.
  intros NoName NE NI.
  unfold enter_ticker, add_ticker, bind, get, put. cbn.
  destruct (String.eqb_spec (upper text) "") as [E|_]; [contradiction|].
  destruct (mem (upper text) (values (company_dict (api app)))) eqn:Mem.
  - exfalso. apply NI. now apply mem_In.
  - cbn. rewrite NoName. destruct (notifications app); reflexivity.
Qed.

End Registration.

(** C4 fails on the code: for the symbol ZZZZINVALID and a source without
    any profile the registry is left as it was, as the claim says, but no
    InvalidTicker is reported: the notifications were never switched on,
    [pn.state.notifications] is [None], and the call that should report the
    rejection raises [AttributeError].  With the notifications switched on
    the same call reports InvalidTicker. *)
Theorem add_ticker_invalid_raises_AttributeError (F : Type) :
  outcome (enter_ticker (@no_profile F) "ZZZZINVALID") start
  = Raise (AttributeError "'NoneType' object has no attribute 'error'")
  /\ company_dict
       (api (final (enter_ticker (@no_profile F) "ZZZZINVALID") start))
     = company_dict (api start)
  /\ notifications (final (enter_ticker (@no_profile F) "ZZZZINVALID") start)
     = None
  /\ outcome (enter_ticker (@no_profile F) "ZZZZINVALID") start_notifying
     = Ok tt
  /\ notifications
       (final (enter_ticker (@no_profile F) "ZZZZINVALID") start_notifying)
     = Some [InvalidTicker]
  /\ company_dict
       (api (final (enter_ticker (@no_profile F) "ZZZZINVALID")
               start_notifying))
     = company_dict (api start_notifying).
Proof. repeat split. Qed.

(** ** Identifiers that are not display names *)

Section UnknownIdentifiers.
Context {F : Type} `{Number F}.
Variable yf : YFinance F.
Variable index_strftime : string -> date -> string.

Lemma selected_tickers_loop (self : DumbergAPI) (selected acc : list string) :
  for_loop selected
    (fun acc company =>
       self <- get ;;
       ticker <- getitem (company_dict self) company ;;
       ret (acc ++ [ticker]))
    acc self
  = match first_unknown (company_dict self) selected with
    | Some company => (Raise (KeyError company), self)
    | None => (Ok (acc ++ map (resolve (company_dict self)) selected), self)
    end.
Proof.
  revert acc. induction selected as [|c cs IH]; intro acc.
  - cbn. now rewrite app_nil_r.
  - cbn [for_loop first_unknown find map].
    unfold bind at 1 2. unfold get at 1. unfold getitem at 1.
    destruct (lookup (company_dict self) c) as [v|] eqn:E; cbn.
    + assert (R : resolve (company_dict self) c = v)
        by (unfold resolve, dict_get; now rewrite E).
      rewrite IH, R. fold (first_unknown (company_dict self) cs).
      destruct (first_unknown (company_dict self) cs); [reflexivity|].
      now rewrite <- app_assoc.
    + reflexivity.
Qed.

(** The donut chart is drawn when every selected identifier is a display
    name of the registry and no capitalisation is [None]; the call raises
    [KeyError] on the first identifier that is no display name, and
    otherwise [TypeError] when a capitalisation is [None]. *)
Lemma plot_donut_chart_run (self : DumbergAPI) (selected : list string) :
  plot_donut_chart yf selected self
  = match first_unknown (company_dict self) selected with
    | Some company => (Raise (KeyError company), self)
    | None =>
        let tickers := map (resolve (company_dict self)) selected in
        match all_billions yf tickers with
        | Some market_caps =>
            (Ok {| traces := [Pie tickers market_caps];
                   title := "Market Cap Distribution" |}, self)
        | None => (Raise (TypeError dividing_None), self)
        end
    end.
Proof.
  unfold plot_donut_chart. unfold bind at 1.
  rewrite selected_tickers_loop.
  destruct (first_unknown (company_dict self) selected); [reflexivity|].
  cbn [app]. unfold bind. rewrite market_caps_loop_run. cbv zeta.
  destruct (all_billions yf (map (resolve (company_dict self)) selected));
    reflexivity.
Qed.

End UnknownIdentifiers.

(** C9 fails on the code: a raw ticker symbol, which
    [create_stock_dataframe] accepts and passes through, makes
    [plot_donut_chart] and [update_performance_tabs] raise [KeyError],
    whatever the data source answers. *)
Theorem raw_ticker_raises_KeyError
    (F : Type) (N : Number F) (yf : YFinance F)
    (index_strftime : string -> date -> string) :
  outcome (plot_donut_chart yf ["AAPL"%string]) init
  = Raise (KeyError "AAPL")
  /\ outcome (update_donut_chart yf ["AAPL"%string]) start
     = Raise (KeyError "AAPL")
  /\ outcome (update_performance_tabs yf index_strftime ["AAPL"%string]) start
     = Raise (KeyError "AAPL")
  /\ outcome (create_stock_dataframe yf ["AAPL"%string]) init
     = Ok (rows_of yf init "AAPL")
  /\ map (@Ticker F) (rows_of yf init "AAPL")
     = map (@Ticker F) (rows_of yf init "Apple Inc.").
Proof.
  split; [|split; [|split; [|split]]].
  - unfold outcome. rewrite plot_donut_chart_run. reflexivity.
  - unfold outcome, update_donut_chart, bind, on_api.
    rewrite plot_donut_chart_run. reflexivity.
  - reflexivity.
  - unfold outcome. rewrite create_stock_dataframe_selected by discriminate.
    cbn [flat_map]. now rewrite app_nil_r.
  - unfold rows_of.
    change (resolve (company_dict init) "AAPL") with "AAPL"%string.
    change (resolve (company_dict init) "Apple Inc.") with "AAPL"%string.
    destruct (history yf "AAPL" P1d); reflexivity.
Qed.

(** ** Quarterly changes *)

Local Open Scope string_scope.
Local Open Scope list_scope.

Lemma three_quarters_waterfall (fmt : string -> date -> string) :
  exists y,
    outcome (plot_waterfall_chart (three_quarters 100 110 99) fmt "AAPL") init
    = Ok {| traces :=
              [Waterfall (map (fmt "%Y-Q%q") [Q4_2023; Q1_2024; Q2_2024]) y];
            title := "AAPL Quarterly Performance" |}
    /\ map Qred y = [10; -10].
Proof. eexists. split; reflexivity. Qed.

(** C6 fails on the code: for a history that runs over the last quarter of
    2023 and the first two of 2024, the chart has a bar under the label of
    the first quarter of the span.  The undefined change of that quarter is
    dropped from the values, its label is not dropped from the labels. *)
Theorem waterfall_plots_first_quarter :
  exists fig glibc_fig,
    outcome
      (plot_waterfall_chart (three_quarters 100 110 99) period_strftime "AAPL")
      init = Ok fig
    /\ map fst (figure_points fig) = ["2023-Q4"; "2024-Q1"]%string
    /\ map Qred (map snd (figure_points fig)) = [10; -10]
    /\ outcome
         (plot_waterfall_chart (three_quarters 100 110 99) strftime "AAPL")
         init = Ok glibc_fig
    /\ map fst (figure_points glibc_fig) = ["2023-Q%q"; "2024-Q%q"]%string
    /\ hd_error (map fst (figure_points fig))
       = Some (period_strftime "%Y-Q%q"
                 (quarter_end (quarter_index (timestamp (session 2023 12 29 100))))).
Proof. do 2 eexists. repeat split. Qed.

(** C7 fails on the code: in the same history the change of the quarter
    that ends on 2024-03-31 is +10 and the change of the quarter that ends
    on 2024-06-30 is -10, and the chart shows them under the labels of the
    quarters that end on 2023-12-31 and 2024-03-31, whatever the formatter;
    with the formatter of the platform the labels read "2023-Q%q" and
    "2024-Q%q", with the quarter directive read as pandas periods read it
    they read "2023-Q4" and "2024-Q1". *)
Theorem waterfall_labels_lag_one_quarter (fmt : string -> date -> string) :
  exists fig,
    outcome (plot_waterfall_chart (three_quarters 100 110 99) fmt "AAPL") init
    = Ok fig
    /\ map (fun dv => (fst dv, Qred (snd dv)))
           (defined_entries
              (quarterly_changes
                 (history (three_quarters 100 110 99) "AAPL" P1y)))
       = [(Q1_2024, 10); (Q2_2024, -10)]
    /\ map (fun lv => (fst lv, Qred (snd lv))) (figure_points fig)
       = [(fmt "%Y-Q%q" Q4_2023, 10); (fmt "%Y-Q%q" Q1_2024, -10)]
    /\ map (strftime "%Y-Q%q") [Q4_2023; Q1_2024]
       = ["2023-Q%q"; "2024-Q%q"]%string
    /\ map (period_strftime "%Y-Q%q") [Q4_2023; Q1_2024; Q2_2024]
       = ["2023-Q4"; "2024-Q1"; "2024-Q2"]%string.
Proof. eexists. repeat split. Qed.

(** *** One label more than values, for every history *)

Lemma fold_min_le (ks : list Z) (k : Z) : (fold_left Z.min ks k <= k)%Z.
Proof.
  revert k. induction ks as [|a ks IH]; intro k; simpl; [lia|].
  specialize (IH (Z.min k a)). lia.
Qed.

Lemma fold_max_ge (ks : list Z) (k : Z) : (k <= fold_left Z.max ks k)%Z.
Proof.
  revert k. induction ks as [|a ks IH]; intro k; simpl; [lia|].
  specialize (IH (Z.max k a)). lia.
Qed.

Lemma fold_min_In (ks : list Z) (k : Z) : In (fold_left Z.min ks k) (k :: ks).
Proof.
  revert k. induction ks as [|a ks IH]; intro k; simpl; [auto|].
  destruct (IH (Z.min k a)) as [E|I].
  - rewrite <- E. destruct (Z.min_spec k a) as [[_ ->]|[_ ->]]; auto.
  - auto.
Qed.


Lemma map_fst_combine (A B : Type) (a : list A) (b : list B) :
  length a = length b -> map fst (combine a b) = a.
Proof.
  revert b. induction a as [|x a IH]; intros [|y b] E; simpl in *;
    try discriminate; [reflexivity|].
  f_equal. apply IH. congruence.
Qed.

Lemma map_snd_combine (A B : Type) (a : list A) (b : list B) :
  length a = length b -> map snd (combine a b) = b.
Proof.
  revert b. induction a as [|x a IH]; intros [|y b] E; simpl in *;
    try discriminate; [reflexivity|].
  f_equal. apply IH. congruence.
Qed.

Lemma fold_max_upper_bound (ks : list Z) (k x : Z) :
  In x (k :: ks) -> (x <= fold_left Z.max ks k)%Z.
Proof.
  revert k. induction ks as [|c cs IH]; intros k I; simpl in *.
  - destruct I as [<-|[]]. lia.
  - pose proof (fold_max_ge cs (Z.max k c)).
    destruct I as [<-|[<-|I]]; try lia.
    apply IH. now right.
Qed.

Lemma quarters_between_head (lo hi : Z) :
  (lo <= hi)%Z ->
  exists rest,
    quarters_between lo hi = lo :: rest
    /\ length rest = Z.to_nat (hi - lo).
Proof.
  intro L. unfold quarters_between.
  replace (Z.to_nat (hi - lo + 1)) with (S (Z.to_nat (hi - lo))) by lia.
  cbn [seq map]. eexists. split.
  - f_equal. lia.
  - now rewrite length_map, length_seq.
Qed.

Section Quarterly.
Context {F : Type} `{Number F}.

Lemma ffill_from_all_present (v : F) (s : Series F) :
  Forall present (ffill_from (Some v) s).
Proof.
  revert v. induction s as [|[x|] s IH]; intro v; simpl; constructor;
    try discriminate; apply IH.
Qed.




End Quarterly.

(** * Further properties *)

(** ** Writing the registry *)

Lemma lookup_setitem_same (d : dict) (k v : string) :
  lookup (setitem d k v) k = Some v.
Proof.
  induction d as [|[k' v'] d IH]; simpl.
  - now rewrite String.eqb_refl.
  - destruct (String.eqb_spec k k') as [->|N]; simpl.
    + now rewrite String.eqb_refl.
    + destruct (String.eqb_spec k k'); [contradiction | exact IH].
Qed.

Lemma lookup_setitem_other (d : dict) (k v k' : string) :
  k' <> k -> lookup (setitem d k v) k' = lookup d k'.
Proof.
  intro N. induction d as [|[k0 v0] d IH]; simpl.
  - destruct (String.eqb_spec k' k); [contradiction | reflexivity].
  - destruct (String.eqb_spec k k0) as [->|N0]; simpl.
    + destruct (String.eqb_spec k' k0); [contradiction | reflexivity].
    + destruct (String.eqb_spec k' k0); [reflexivity | exact IH].
Qed.

Lemma keys_setitem_known (d : dict) (k v : string) :
  In k (keys d) -> keys (setitem d k v) = keys d.
Proof.
  induction d as [|[k' v'] d IH]; simpl; intro I; [contradiction|].
  destruct (String.eqb_spec k k') as [->|N]; simpl; [reflexivity|].
  f_equal. apply IH. destruct I as [E|I]; [congruence | exact I].
Qed.

Lemma keys_setitem_new (d : dict) (k v : string) :
  ~ In k (keys d) -> keys (setitem d k v) = keys d ++ [k].
Proof.
  induction d as [|[k' v'] d IH]; simpl; intro N; [reflexivity|].
  destruct (String.eqb_spec k k') as [->|N']; simpl.
  - exfalso. apply N. now left.
  - f_equal. apply IH. intro I. apply N. now right.
Qed.

Lemma In_values_setitem (d : dict) (k v : string) :
  In v (values (setitem d k v)).
Proof.
  induction d as [|[k' v'] d IH]; simpl; [now left|].
  destruct (String.eqb k k'); simpl; [now left | now right].
Qed.

Lemma keys_setitem_cases (d : dict) (k v : string) :
  keys (setitem d k v) = keys d \/ keys (setitem d k v) = keys d ++ [k].
Proof.
  destruct (in_dec string_dec k (keys d)) as [I|N].
  - left. now apply keys_setitem_known.
  - right. now apply keys_setitem_new.
Qed.

Lemma NoDup_keys_setitem (d : dict) (k v : string) :
  NoDup (keys d) -> NoDup (keys (setitem d k v)).
Proof.
  intro ND. destruct (in_dec string_dec k (keys d)) as [I|N].
  - now rewrite keys_setitem_known.
  - rewrite keys_setitem_new by exact N.
    apply NoDup_app; [exact ND | repeat constructor; simpl; tauto |].
    intros x Ix [<-|[]]. contradiction.
Qed.

Lemma upper_ascii_idempotent (c : ascii) :
  upper_ascii (upper_ascii c) = upper_ascii c.
Proof.
  destruct c as [[] [] [] [] [] [] [] []]; reflexivity.
Qed.

Lemma upper_idempotent (s : string) : upper (upper s) = upper s.
Proof.
  induction s as [|c s IH]; simpl; [reflexivity|].
  now rewrite upper_ascii_idempotent, IH.
Qed.

(** What the watcher leaves behind, case by case. *)
Lemma enter_ticker_run (F : Type) (yf : YFinance F) (app : App)
    (text : string) :
  final (enter_ticker yf text) app
  = let symbol := upper text in
    let d := company_dict (api app) in
    if negb (String.eqb symbol "") && negb (mem symbol (values d))
    then match longName (info yf symbol) with
         | Some company_name =>
             {| api := {| company_dict := setitem d company_name symbol |};
                company_selector_options := keys (setitem d company_name symbol);
                ticker_input_value := "";
                notifications := notifications app |}
         | None =>
             match notifications app with
             | Some shown =>
                 {| api := api app;
                    company_selector_options := company_selector_options app;
                    ticker_input_value := text;
                    notifications := Some (shown ++ [InvalidTicker]) |}
             | None => with_input app text
             end
         end
    else with_input app text.
Proof.
  unfold final, enter_ticker, add_ticker, bind, get, put, with_input. cbn.
  destruct (negb (String.eqb (upper text) "")
            && negb (mem (upper text) (values (company_dict (api app))))).
  - destruct (longName (info yf (upper text))); [reflexivity|].
    destruct (notifications app) eqn:Shown; cbn; now rewrite ?Shown.
  - reflexivity.
Qed.

Lemma guard_open (symbol : string) (vs : list string) :
  symbol <> ""%string -> ~ In symbol vs ->
  negb (String.eqb symbol "") && negb (mem symbol vs) = true.
Proof.
  intros NE NI.
  destruct (String.eqb_spec symbol "") as [E|_]; [contradiction|].
  destruct (mem symbol vs) eqn:Mem; [|reflexivity].
  exfalso. apply NI. now apply mem_In.
Qed.

Lemma guard_closed (symbol : string) (vs : list string) :
  symbol = ""%string \/ In symbol vs ->
  negb (String.eqb symbol "") && negb (mem symbol vs) = false.
Proof.
  intros [->|I]; [reflexivity|].
  apply mem_In in I. rewrite I. now rewrite andb_false_r.
Qed.

(** X1: a non-empty symbol that is not yet registered and that the source
    can name is registered under its long name, upper-cased: the name now
    resolves to the symbol, every other name resolves as before, the
    check-box group offers the keys of the new registry, the input is
    cleared and nothing is reported. *)
Theorem add_ticker_registers (F : Type) (yf : YFinance F) (app : App)
    (text company_name : string) :
  upper text <> ""%string ->
  ~ In (upper text) (values (company_dict (api app))) ->
  longName (info yf (upper text)) = Some company_name ->
  let after := final (enter_ticker yf text) app in
  lookup (company_dict (api after)) company_name = Some (upper text)
  /\ resolve (company_dict (api after)) company_name = upper text
  /\ In (upper text) (values (company_dict (api after)))
  /\ (forall other, other <> company_name ->
        resolve (company_dict (api after)) other
        = resolve (company_dict (api app)) other)
  /\ company_selector_options after = keys (company_dict (api after))
  /\ ticker_input_value after = ""%string
  /\ notifications after = notifications app.
Proof.
  intros NE NI Named after. subst after.
  rewrite enter_ticker_run. cbv zeta.
  rewrite (@guard_open _ _ NE NI), Named. cbn [api company_dict
    company_selector_options ticker_input_value notifications].
  split; [apply lookup_setitem_same|].
  split; [unfold resolve, dict_get; now rewrite lookup_setitem_same|].
  split; [apply In_values_setitem|].
  split; [|repeat split].
  intros other N. unfold resolve, dict_get.
  now rewrite lookup_setitem_other.
Qed.

Lemma add_ticker_registers_witness :
  upper "nflx" <> ""%string
  /\ ~ In (upper "nflx") (values (company_dict (api start)))
  /\ resolve
       (company_dict (api (final (enter_ticker (@knows_netflix Q) "nflx") start)))
       "Netflix, Inc." = "NFLX"%string.
Proof.
  assert (NE : upper "nflx" <> ""%string) by discriminate.
  assert (NI : ~ In (upper "nflx") (values (company_dict (api start)))).
  { vm_compute. intuition discriminate. }
  split; [exact NE|]. split; [exact NI|].
  apply (add_ticker_registers (@knows_netflix Q) start "nflx" NE NI eq_refl).
Defined.

(** X2: the empty text and a symbol that is already a value of the registry
    are put aside whatever the source would answer: registry, options and
    notifications stay as they are and the text stays in the input. *)
Theorem add_ticker_ignores_registered_symbol (F : Type) (yf : YFinance F)
    (app : App) (text : string) :
  upper text = ""%string \/ In (upper text) (values (company_dict (api app))) ->
  final (enter_ticker yf text) app = with_input app text
  /\ outcome (enter_ticker yf text) app = Ok tt.
Proof.
  intro G. split.
  - rewrite enter_ticker_run. cbv zeta. now rewrite (@guard_closed _ _ G).
  - unfold outcome, enter_ticker, add_ticker, bind, get, put. cbn.
    rewrite (@guard_closed _ _ G). reflexivity.
Qed.

Lemma add_ticker_ignores_registered_symbol_witness :
  In (upper "brk-b") (values (company_dict (api start)))
  /\ final (enter_ticker (@knows_netflix Q) "brk-b") start
     = with_input start "brk-b".
Proof.
  assert (I : In (upper "brk-b") (values (company_dict (api start)))).
  { vm_compute. tauto. }
  split; [exact I|].
  apply (add_ticker_ignores_registered_symbol (@knows_netflix Q) start "brk-b"
           (or_intror I)).
Defined.

(** X3: registering never removes an entry: every display name of the
    registry is still one afterwards, in the same place, and the registry
    gains at most one entry. *)
Theorem add_ticker_registry_grows (F : Type) (yf : YFinance F) (app : App)
    (text : string) :
  let before := company_dict (api app) in
  let after := company_dict (api (final (enter_ticker yf text) app)) in
  (exists added, keys after = keys before ++ added /\ (length added <= 1)%nat)
  /\ incl (keys before) (keys after)
  /\ (length before <= length after <= S (length before))%nat.
Proof.
  cbv zeta. rewrite enter_ticker_run. cbv zeta.
  assert (Same : forall d : dict,
             (exists added, keys d = keys d ++ added /\ (length added <= 1)%nat)
             /\ incl (keys d) (keys d)
             /\ (length d <= length d <= S (length d))%nat).
  { intro d. split; [exists []; rewrite app_nil_r; auto|].
    split; [apply incl_refl | lia]. }
  destruct (negb (String.eqb (upper text) "") && _); [|apply Same].
  destruct (longName (info yf (upper text))) as [name|];
    [|destruct (notifications app); apply Same].
  cbn [api company_dict].
  set (d := company_dict (api app)).
  assert (L : forall d' : dict, length d' = length (keys d'))
    by (intro d'; unfold keys; now rewrite length_map).
  destruct (in_dec string_dec name (keys d)) as [I|N].
  - pose proof (@keys_setitem_known d name (upper text) I) as K.
    split; [exists []; rewrite K, app_nil_r; auto|].
    split; [rewrite K; apply incl_refl|].
    rewrite (L (setitem d name (upper text))), K, <- L. lia.
  - pose proof (@keys_setitem_new d name (upper text) N) as K.
    split; [exists [name]; rewrite K; auto|].
    split; [rewrite K; apply incl_appl, incl_refl|].
    rewrite (L (setitem d name (upper text))), K, length_app, <- L.
    cbn [length]. lia.
Qed.

(** X4: registering keeps the display names of the registry distinct. *)
Theorem add_ticker_keeps_names_distinct (F : Type) (yf : YFinance F)
    (app : App) (text : string) :
  NoDup (keys (company_dict (api app))) ->
  NoDup (keys (company_dict (api (final (enter_ticker yf text) app)))).
Proof.
  intro ND. rewrite enter_ticker_run. cbv zeta.
  destruct (negb (String.eqb (upper text) "") && _); [|exact ND].
  destruct (longName (info yf (upper text))) as [name|];
    [|destruct (notifications app); exact ND].
  cbn [api company_dict]. now apply NoDup_keys_setitem.
Qed.

Lemma NoDup_init : NoDup (keys (company_dict init)).
Proof.
  repeat (constructor; [simpl; intuition discriminate|]). constructor.
Qed.

Lemma add_ticker_keeps_names_distinct_witness :
  NoDup (keys (company_dict (api start)))
  /\ NoDup (keys (company_dict
                   (api (final (enter_ticker (@knows_netflix Q) "nflx") start)))).
Proof.
  split; [exact NoDup_init|].
  apply (add_ticker_keeps_names_distinct (@knows_netflix Q) start "nflx").
  exact NoDup_init.
Defined.

(** X5: for a text of ASCII characters, on which the upper-casing of the
    model is that of [str.upper], registration does not depend on the case
    of the text: the text and its upper-cased form give the same outcome
    and leave the same registry, the same options and the same
    notifications. *)
Theorem add_ticker_case_insensitive (F : Type) (yf : YFinance F) (app : App)
    (text : string) :
  ascii_text text = true ->
  let typed := enter_ticker yf text app in
  let shouted := enter_ticker yf (upper text) app in
  fst typed = fst shouted
  /\ api (snd typed) = api (snd shouted)
  /\ company_selector_options (snd typed)
     = company_selector_options (snd shouted)
  /\ notifications (snd typed) = notifications (snd shouted).
Proof.
  intros _. cbv zeta.
  unfold enter_ticker, add_ticker, bind, get, put. cbn.
  rewrite upper_idempotent.
  destruct (negb (String.eqb (upper text) "") && _).
  - destruct (longName (info yf (upper text))); [repeat split|].
    destruct (notifications app); repeat split.
  - repeat split.
Qed.

Lemma add_ticker_case_insensitive_witness :
  ascii_text "nflx" = true
  /\ api (snd (enter_ticker (@knows_netflix Q) "nflx" start))
     = api (snd (enter_ticker (@knows_netflix Q) (upper "nflx") start)).
Proof.
  split; [reflexivity|].
  destruct (add_ticker_case_insensitive (@knows_netflix Q) start "nflx"
              eq_refl) as [_ [Same _]].
  exact Same.
Defined.

(** X6: when a registration succeeded, the watcher fired again by the
    clearing of the input does nothing, whatever the source answers then. *)
Theorem add_ticker_fires_once (F : Type) (yf later : YFinance F) (app : App)
    (text company_name : string) :
  upper text <> ""%string ->
  ~ In (upper text) (values (company_dict (api app))) ->
  longName (info yf (upper text)) = Some company_name ->
  let after := final (enter_ticker yf text) app in
  add_ticker later after = (Ok tt, after).
Proof.
  intros NE NI Named after. subst after.
  rewrite enter_ticker_run. cbv zeta.
  rewrite (@guard_open _ _ NE NI), Named. reflexivity.
Qed.

Lemma add_ticker_fires_once_witness :
  upper "nflx" <> ""%string
  /\ ~ In (upper "nflx") (values (company_dict (api start)))
  /\ add_ticker (@knows_netflix Q)
       (final (enter_ticker (@knows_netflix Q) "nflx") start)
     = (Ok tt, final (enter_ticker (@knows_netflix Q) "nflx") start).
Proof.
  assert (NE : upper "nflx" <> ""%string) by discriminate.
  assert (NI : ~ In (upper "nflx") (values (company_dict (api start)))).
  { vm_compute. intuition discriminate. }
  split; [exact NE|]. split; [exact NI|].
  apply (add_ticker_fires_once (@knows_netflix Q) (@knows_netflix Q) start
           "nflx" NE NI eq_refl).
Defined.

(** X7: when the source gives a new symbol the long name of a company that
    is already registered, no entry is added: the company keeps its place
    and its check box, and its symbol is replaced by the new one. *)
Theorem add_ticker_rebinds_known_name (F : Type) (yf : YFinance F)
    (app : App) (text company_name : string) :
  upper text <> ""%string ->
  ~ In (upper text) (values (company_dict (api app))) ->
  longName (info yf (upper text)) = Some company_name ->
  In company_name (keys (company_dict (api app))) ->
  let after := final (enter_ticker yf text) app in
  keys (company_dict (api after)) = keys (company_dict (api app))
  /\ length (company_dict (api after)) = length (company_dict (api app))
  /\ resolve (company_dict (api after)) company_name = upper text
  /\ resolve (company_dict (api app)) company_name <> upper text.
Proof.
  intros NE NI Named Known after. subst after.
  rewrite enter_ticker_run. cbv zeta.
  rewrite (@guard_open _ _ NE NI), Named. cbn [api company_dict].
  set (d := company_dict (api app)) in *.
  pose proof (@keys_setitem_known d company_name (upper text) Known) as K.
  split; [exact K|]. split.
  - transitivity (length (keys (setitem d company_name (upper text)))).
    + unfold keys. now rewrite length_map.
    + rewrite K. unfold keys. now rewrite length_map.
  - split; [unfold resolve, dict_get; now rewrite lookup_setitem_same|].
    intro E. apply NI. rewrite <- E.
    unfold resolve, dict_get.
    destruct (lookup d company_name) as [v|] eqn:L.
    + clear - L. induction d as [|[k v'] d IH]; simpl in *; [discriminate|].
      destruct (String.eqb company_name k).
      * injection L as ->. now left.
      * right. now apply IH.
    + apply lookup_keys in Known. contradiction.
Qed.

Lemma add_ticker_rebinds_known_name_witness :
  upper "goog" <> ""%string
  /\ ~ In (upper "goog") (values (company_dict (api start)))
  /\ In "Alphabet Inc. (Google)"%string (keys (company_dict (api start)))
  /\ resolve (company_dict (api start)) "Alphabet Inc. (Google)"
     = "GOOGL"%string
  /\ resolve
       (company_dict (api (final (enter_ticker (@knows_goog Q) "goog") start)))
       "Alphabet Inc. (Google)" = "GOOG"%string.
Proof.
  assert (NE : upper "goog" <> ""%string) by discriminate.
  assert (NI : ~ In (upper "goog") (values (company_dict (api start)))).
  { vm_compute. intuition discriminate. }
  assert (K : In "Alphabet Inc. (Google)"%string
                 (keys (company_dict (api start)))).
  { vm_compute. tauto. }
  split; [exact NE|]. split; [exact NI|]. split; [exact K|].
  split; [reflexivity|].
  apply (add_ticker_rebinds_known_name (@knows_goog Q) start "goog"
           NE NI eq_refl K).
Defined.

(** ** The states the application reaches *)

Section Reachable.
Context {F : Type} `{Number F}.

Lemma incl_keys_setitem (d : dict) (k v : string) :
  incl (keys d) (keys (setitem d k v)).
Proof.
  destruct (keys_setitem_cases d k v) as [-> | ->].
  - apply incl_refl.
  - apply incl_appl, incl_refl.
Qed.

Lemma reachable_invariant (app : App) :
  reachable app ->
  company_selector_options app = keys (company_dict (api app))
  /\ NoDup (keys (company_dict (api app)))
  /\ incl (keys (company_dict init)) (keys (company_dict (api app)))
  /\ (10 <= length (company_dict (api app)))%nat.
Proof.
  induction 1 as [ | yf text app R IH | yf sel app R IH | yf sel app R IH
                   | yf fmt sel app R IH ].
  - split; [reflexivity|]. split; [exact NoDup_init|].
    split; [apply incl_refl | cbn; lia].
  - destruct IH as [O [ND [I L]]].
    rewrite enter_ticker_run. cbv zeta.
    destruct (negb (String.eqb (upper text) "") && _);
      [|cbn; repeat split; assumption].
    destruct (longName (info yf (upper text))) as [name|];
      [|destruct (notifications app); cbn; repeat split; assumption].
    cbn [api company_dict company_selector_options].
    split; [reflexivity|]. split; [now apply NoDup_keys_setitem|]. split.
    + eapply incl_tran; [exact I | apply incl_keys_setitem].
    + pose proof (@incl_keys_setitem (company_dict (api app)) name (upper text)) as G.
      apply NoDup_incl_length in G; [|exact ND].
      unfold keys in G. rewrite !length_map in G. lia.
  - now rewrite update_stock_table_read_only.
  - now rewrite update_donut_chart_read_only.
  - now rewrite update_performance_tabs_read_only.
Qed.

(** X8: in every state the application reaches, the check-box group
    offers exactly the display names of the registry, these names are
    distinct, and the ten companies the application starts with are still
    among them. *)
Theorem reachable_options_are_registry (app : App) :
  reachable app ->
  company_selector_options app = keys (company_dict (api app))
  /\ NoDup (keys (company_dict (api app)))
  /\ incl (keys (company_dict init)) (keys (company_dict (api app)))
  /\ (10 <= length (company_dict (api app)))%nat.
Proof. exact (reachable_invariant (app := app)). Qed.

End Reachable.

Lemma reachable_options_are_registry_witness :
  @reachable Q _ (final (enter_ticker (@knows_netflix Q) "nflx") start)
  /\ company_selector_options
       (final (enter_ticker (@knows_netflix Q) "nflx") start)
     = keys (company_dict init) ++ ["Netflix, Inc."%string].
Proof.
  assert (R : @reachable Q _
                (final (enter_ticker (@knows_netflix Q) "nflx") start)).
  { apply reach_add_ticker. apply reach_start. }
  split; [exact R|].
  destruct (reachable_options_are_registry R) as [O _].
  rewrite O. reflexivity.
Defined.

(** ** Selections made in the check-box group *)

Section Selections.
Context {F : Type} `{Number F}.
Variable yf : YFinance F.
Variable index_strftime : string -> date -> string.

Lemma first_unknown_none (d : dict) (selected : list string) :
  incl selected (keys d) -> first_unknown d selected = None.
Proof.
  induction selected as [|c cs IH]; intro I; [reflexivity|].
  cbn [first_unknown find].
  assert (K : In c (keys d)) by (apply I; now left).
  apply lookup_keys in K.
  destruct (lookup d c); [|congruence].
  apply IH. intros x Ix. apply I. now right.
Qed.

Lemma on_api_run (A : Type) (m : M DumbergAPI A) (app : App) :
  read_only m -> on_api m app = (outcome m (api app), app).
Proof.
  intro R. unfold on_api, outcome.
  specialize (R (api app)). unfold final in R. rewrite R.
  destruct app; reflexivity.
Qed.

Lemma plot_performance_chart_returns (ticker : string) (self : DumbergAPI) :
  exists fig, plot_performance_chart yf ticker self = (Ok fig, self).
Proof.
  unfold plot_performance_chart.
  destruct (history yf ticker P1y); eexists; reflexivity.
Qed.

Lemma plot_waterfall_chart_returns (ticker : string) (self : DumbergAPI) :
  exists fig,
    plot_waterfall_chart yf index_strftime ticker self = (Ok fig, self).
Proof.
  unfold plot_waterfall_chart.
  destruct (history yf ticker P1y); eexists; reflexivity.
Qed.

Lemma performance_tabs_loop (app : App) (selected : list string)
    (acc : list (string * (Figure F * Figure F))) :
  incl selected (keys (company_dict (api app))) ->
  exists tabs,
    for_loop selected
      (fun tabs ticker =>
         app <- get ;;
         full_ticker <- getitem (company_dict (api app)) ticker ;;
         performance_chart <-
           on_api (plot_performance_chart yf full_ticker) ;;
         waterfall_chart <-
           on_api (plot_waterfall_chart yf index_strftime full_ticker) ;;
         ret (tabs ++ [(ticker, (performance_chart, waterfall_chart))]))
      acc app
    = (Ok (acc ++ tabs), app)
    /\ map fst tabs = selected
    /\ Forall
         (fun tab =>
            tab_charts yf index_strftime (api app)
                       (resolve (company_dict (api app)) (fst tab)) (snd tab))
         tabs.
Proof.
  set (body := fun (tabs : list (string * (Figure F * Figure F)))
                   (ticker : string) => _).
  revert acc. induction selected as [|c cs IH]; intros acc I.
  - exists []. cbn. rewrite app_nil_r. repeat split. constructor.
  - assert (K : In c (keys (company_dict (api app)))) by (apply I; now left).
    apply lookup_keys in K.
    destruct (lookup (company_dict (api app)) c) as [v|] eqn:L; [|congruence].
    assert (R : resolve (company_dict (api app)) c = v)
      by (unfold resolve, dict_get; now rewrite L).
    destruct (plot_performance_chart_returns v (api app)) as [pf P].
    destruct (plot_waterfall_chart_returns v (api app)) as [wf W].
    assert (B : body acc c app = (Ok (acc ++ [(c, (pf, wf))]), app)).
    { unfold body, bind, get, getitem. rewrite L. unfold ret. cbv beta iota.
      rewrite (on_api_run app (plot_performance_chart_read_only yf v)).
      unfold outcome. rewrite P. cbn [fst].
      rewrite (on_api_run app
                 (plot_waterfall_chart_read_only yf index_strftime v)).
      unfold outcome. rewrite W. reflexivity. }
    destruct (IH (acc ++ [(c, (pf, wf))])) as [tabs [E [Names Charts]]].
    { intros x Ix. apply I. now right. }
    exists ((c, (pf, wf)) :: tabs).
    cbn [for_loop]. unfold bind. rewrite B, E, <- app_assoc.
    split; [reflexivity|].
    split; [cbn [map fst]; now rewrite Names|].
    constructor; [|exact Charts].
    cbn [fst snd]. rewrite R. unfold tab_charts, outcome.
    rewrite P, W. split; reflexivity.
Qed.

(** X9: for a selection of display names of the registry, the
    performance callback returns one tab per selected company, in the order
    of the selection, titled by the display name and holding the
    performance chart and the waterfall chart of the company's symbol; the
    application state is left as it was. *)
Theorem performance_tabs_follow_selection (app : App)
    (selected : list string) :
  selected <> [] ->
  incl selected (keys (company_dict (api app))) ->
  exists tabs,
    update_performance_tabs yf index_strftime selected app
    = (Ok (Tabs tabs), app)
    /\ map fst tabs = selected
    /\ Forall
         (fun tab =>
            tab_charts yf index_strftime (api app)
                       (resolve (company_dict (api app)) (fst tab)) (snd tab))
         tabs.
Proof.
  intros NE I.
  destruct (performance_tabs_loop app [] I) as [tabs [E [Names Charts]]].
  exists tabs. split; [|split; assumption].
  unfold update_performance_tabs.
  destruct selected as [|c cs]; [congruence|].
  unfold bind at 1. rewrite E. reflexivity.
Qed.

(** X10: in a state the application reaches, a selection taken from the
    options of the check-box group never makes a callback raise
    [KeyError]: the table and the tabs are returned, and the donut chart
    is returned too unless a capitalisation is [None], which raises
    [TypeError]. *)
Theorem checkbox_selection_never_raises_KeyError (app : App)
    (selected : list string) :
  reachable app ->
  incl selected (company_selector_options app) ->
  (exists pane, outcome (update_stock_table yf selected) app = Ok pane)
  /\ (exists pane,
         outcome (update_performance_tabs yf index_strftime selected) app
         = Ok pane)
  /\ (forall key,
         outcome (update_donut_chart yf selected) app <> Raise (KeyError key))
  /\ (Forall
        (fun company =>
           marketCap (info yf (resolve (company_dict (api app)) company))
           <> Null)
        selected ->
      exists pane, outcome (update_donut_chart yf selected) app = Ok pane).
Proof.
  intros R I.
  destruct (reachable_invariant R) as [O _]. rewrite O in I.
  destruct selected as [|c cs].
  - repeat split; try (eexists; reflexivity). intros key E. discriminate.
  - assert (Donut :
      outcome (update_donut_chart yf (c :: cs)) app
      = match all_billions yf
                (map (resolve (company_dict (api app))) (c :: cs)) with
        | Some market_caps =>
            Ok (Plotly
                  {| traces :=
                       [Pie (map (resolve (company_dict (api app))) (c :: cs))
                            market_caps];
                     title := "Market Cap Distribution" |})
        | None => Raise (TypeError dividing_None)
        end).
    { unfold outcome, update_donut_chart, bind.
      rewrite (on_api_run app (plot_donut_chart_read_only yf (c :: cs))).
      unfold outcome. rewrite plot_donut_chart_run.
      rewrite (first_unknown_none _ I). cbv zeta.
      destruct (all_billions yf _); reflexivity. }
    split; [|split; [|split]].
    + unfold outcome, update_stock_table, bind.
      rewrite (on_api_run app (create_stock_dataframe_read_only yf (c :: cs))).
      unfold outcome.
      rewrite create_stock_dataframe_selected by discriminate. cbn [fst].
      rewrite (on_api_run app (create_stock_table_read_only _)).
      destruct (create_stock_table_cells
                  (flat_map (rows_of yf (api app)) (c :: cs)) (api app))
        as [header T].
      unfold outcome. rewrite T. eexists. reflexivity.
    + assert (NE : c :: cs <> []) by discriminate.
      destruct (performance_tabs_loop app [] I) as [tabs [E _]].
      unfold outcome, update_performance_tabs. unfold bind at 1. rewrite E.
      eexists. reflexivity.
    + intros key E. rewrite Donut in E.
      destruct (all_billions yf _); discriminate.
    + intro NoNone. rewrite Donut.
      destruct (@all_billions_without_None F _ yf
                  (map (resolve (company_dict (api app))) (c :: cs)))
        as [caps [E _]].
      { apply Forall_forall. intros t It.
        apply in_map_iff in It. destruct It as [company [<- Ic]].
        rewrite Forall_forall in NoNone. now apply NoNone. }
      rewrite E. eexists. reflexivity.
Qed.

(** X11: the table callback never raises, whatever is selected.  For no
    selection it returns the prompt, so that the table of all companies
    that [create_stock_dataframe] builds for no identifier is never shown;
    otherwise it returns the table of the selected identifiers whose fetch
    returned prices, in the order of the selection. *)
Theorem update_stock_table_shows_selection (app : App)
    (selected : list string) :
  exists pane,
    update_stock_table yf selected app = (Ok pane, app)
    /\ match selected with
       | [] => pane = Markdown "### Please select at least one company."
       | _ :: _ =>
           exists header cells colors,
             pane = Plotly {| traces := [Table header cells colors];
                              title := "" |}
             /\ map (@t_Ticker F) cells
                = map (resolve (company_dict (api app)))
                      (filter
                         (fun company =>
                            fetch_succeeded yf (api app)
                              (resolve (company_dict (api app)) company))
                         selected)
       end.
Proof.
  destruct selected as [|c cs].
  - eexists. split; reflexivity.
  - set (df := flat_map (rows_of yf (api app)) (c :: cs)).
    destruct (create_stock_table_cells df (api app)) as [header T].
    eexists. split.
    + unfold update_stock_table, bind.
      rewrite (on_api_run app (create_stock_dataframe_read_only yf (c :: cs))).
      unfold outcome.
      rewrite create_stock_dataframe_selected by discriminate. cbn [fst].
      rewrite (on_api_run app (create_stock_table_read_only _)).
      unfold outcome. fold df. rewrite T. reflexivity.
    + do 3 eexists. split; [reflexivity|].
      unfold df. generalize (c :: cs). intro l.
      induction l as [|x l IH]; [reflexivity|].
      cbn [flat_map filter]. rewrite !map_app, IH.
      unfold rows_of at 1, fetch_succeeded at 2, outcome, fetch_stock_data.
      destruct (history yf (resolve (company_dict (api app)) x) P1d);
        reflexivity.
Qed.

End Selections.

Lemma performance_tabs_follow_selection_witness :
  ["Tesla Inc."%string] <> []
  /\ incl ["Tesla Inc."%string] (keys (company_dict (api start)))
  /\ exists tabs,
       update_performance_tabs (three_quarters 100 110 99) strftime
         ["Tesla Inc."%string] start = (Ok (Tabs tabs), start)
       /\ map fst tabs = ["Tesla Inc."%string].
Proof.
  assert (NE : ["Tesla Inc."%string] <> []) by discriminate.
  assert (I : incl ["Tesla Inc."%string] (keys (company_dict (api start)))).
  { intros x [<-|[]]. vm_compute. tauto. }
  split; [exact NE|]. split; [exact I|].
  destruct (performance_tabs_follow_selection (three_quarters 100 110 99)
              strftime start NE I) as [tabs [E [N _]]].
  exists tabs. split; assumption.
Defined.

Lemma checkbox_selection_never_raises_KeyError_witness :
  @reachable Q _ start
  /\ incl ["Tesla Inc."%string] (company_selector_options start)
  /\ (forall key,
         outcome (update_donut_chart (@null_caps Q) ["Tesla Inc."%string]) start
         <> Raise (KeyError key))
  /\ exists pane,
       outcome (update_donut_chart (three_quarters 100 110 99)
                  ["Tesla Inc."%string]) start = Ok pane.
Proof.
  assert (I : incl ["Tesla Inc."%string] (company_selector_options start)).
  { intros x [<-|[]]. vm_compute. tauto. }
  split; [apply reach_start|]. split; [exact I|]. split.
  - destruct (checkbox_selection_never_raises_KeyError (@null_caps Q)
                strftime (@reach_start Q _) I) as [_ [_ [D _]]].
    exact D.
  - destruct (checkbox_selection_never_raises_KeyError
                (three_quarters 100 110 99) strftime (@reach_start Q _) I)
      as [_ [_ [_ D]]].
    apply D. repeat constructor. discriminate.
Defined.

(** ** Batches of identifiers *)

Section Batches.
Context {F : Type} `{Number F}.
Variable yf : YFinance F.

(** X12: the records of a batch are the records of its parts, one after
    the other: each identifier is fetched on its own, and what one
    identifier returns changes nothing for the others. *)
Theorem create_stock_dataframe_concat (self : DumbergAPI)
    (first second : list string) :
  first <> [] -> second <> [] ->
  exists df1 df2,
    outcome (create_stock_dataframe yf first) self = Ok df1
    /\ outcome (create_stock_dataframe yf second) self = Ok df2
    /\ outcome (create_stock_dataframe yf (first ++ second)) self
       = Ok (df1 ++ df2).
Proof.
  intros N1 N2.
  exists (flat_map (rows_of yf self) first),
         (flat_map (rows_of yf self) second).
  unfold outcome.
  rewrite !create_stock_dataframe_selected; try assumption.
  - rewrite flat_map_app. repeat split.
  - destruct first; [congruence | discriminate].
Qed.

(** X13: an identifier for which the source has no session today is left
    out of the records and the batch goes on: the other identifiers give
    the records they give without it. *)
Theorem create_stock_dataframe_skips_no_data (self : DumbergAPI)
    (before after : list string) (company : string) :
  history yf (resolve (company_dict self) company) P1d = [] ->
  before ++ after <> [] ->
  create_stock_dataframe yf (before ++ company :: after) self
  = create_stock_dataframe yf (before ++ after) self.
Proof.
  intros NoData NE.
  rewrite !create_stock_dataframe_selected; try assumption.
  - rewrite !flat_map_app. cbn [flat_map].
    unfold rows_of at 2. rewrite NoData. reflexivity.
  - destruct before; discriminate.
Qed.

(** X14: a display name and the symbol registered for it give the same
    record but for the [Company] column, provided the symbol is not itself
    a display name. *)
Theorem name_and_symbol_same_prices (self : DumbergAPI)
    (company symbol : string) :
  lookup (company_dict self) company = Some symbol ->
  lookup (company_dict self) symbol = None ->
  exists by_name by_symbol,
    outcome (create_stock_dataframe yf [company]) self = Ok by_name
    /\ outcome (create_stock_dataframe yf [symbol]) self = Ok by_symbol
    /\ map (@Company F) by_name = map (fun _ => company) by_symbol
    /\ map (@Company F) by_symbol = map (fun _ => symbol) by_name
    /\ map (fun r => (Ticker r, Current_Price r, Opening_Price r, Price_Change r))
           by_name
       = map (fun r => (Ticker r, Current_Price r, Opening_Price r, Price_Change r))
             by_symbol.
Proof.
  intros Known Raw.
  exists (rows_of yf self company), (rows_of yf self symbol).
  unfold outcome.
  rewrite !create_stock_dataframe_selected by discriminate.
  cbn [flat_map fst]. rewrite !app_nil_r.
  split; [reflexivity|]. split; [reflexivity|].
  unfold rows_of.
  assert (R1 : resolve (company_dict self) company = symbol)
    by (unfold resolve, dict_get; now rewrite Known).
  assert (R2 : resolve (company_dict self) symbol = symbol)
    by (unfold resolve, dict_get; now rewrite Raw).
  rewrite R1, R2.
  destruct (history yf symbol P1d); repeat split.
Qed.

End Batches.

Lemma create_stock_dataframe_concat_witness :
  ["Tesla Inc."%string] <> [] /\ ["AAPL"%string] <> []
  /\ exists df1 df2,
       outcome (create_stock_dataframe (only_apple 10 12) ["Tesla Inc."%string])
               init = Ok df1
       /\ outcome (create_stock_dataframe (only_apple 10 12) ["AAPL"%string])
                  init = Ok df2
       /\ outcome (create_stock_dataframe (only_apple 10 12)
                     (["Tesla Inc."%string] ++ ["AAPL"%string])) init
          = Ok (df1 ++ df2).
Proof.
  assert (N1 : ["Tesla Inc."%string] <> []) by discriminate.
  assert (N2 : ["AAPL"%string] <> []) by discriminate.
  split; [exact N1|]. split; [exact N2|].
  exact (@create_stock_dataframe_concat Q _ (only_apple 10 12) init _ _ N1 N2).
Defined.

Lemma create_stock_dataframe_skips_no_data_witness :
  history (only_apple 10 12) (resolve (company_dict init) "Tesla Inc.") P1d = []
  /\ [] ++ ["Apple Inc."%string] <> []
  /\ create_stock_dataframe (only_apple 10 12)
       ([] ++ "Tesla Inc."%string :: ["Apple Inc."%string]) init
     = create_stock_dataframe (only_apple 10 12) ([] ++ ["Apple Inc."%string])
         init.
Proof.
  assert (NE : [] ++ ["Apple Inc."%string] <> []) by discriminate.
  split; [reflexivity|]. split; [exact NE|].
  exact (@create_stock_dataframe_skips_no_data Q _ (only_apple 10 12) init []
           ["Apple Inc."%string] "Tesla Inc." eq_refl NE).
Defined.

Lemma name_and_symbol_same_prices_witness :
  lookup (company_dict init) "Apple Inc." = Some "AAPL"%string
  /\ lookup (company_dict init) "AAPL" = None
  /\ exists by_name by_symbol,
       outcome (create_stock_dataframe (only_apple 10 12)
                  ["Apple Inc."%string]) init = Ok by_name
       /\ outcome (create_stock_dataframe (only_apple 10 12)
                     ["AAPL"%string]) init = Ok by_symbol
       /\ map (@Ticker Q) by_name = map (@Ticker Q) by_symbol.
Proof.
  split; [reflexivity|]. split; [reflexivity|].
  destruct (@name_and_symbol_same_prices Q _ (only_apple 10 12) init
              "Apple Inc." "AAPL" eq_refl eq_refl)
    as [by_name [by_symbol [E1 [E2 [_ [_ Same]]]]]].
  exists by_name, by_symbol. split; [exact E1|]. split; [exact E2|].
  apply (f_equal (map (fun t => fst (fst (fst t))))) in Same.
  rewrite !map_map in Same. exact Same.
Defined.

(** ** The table and the donut chart *)

Section Charts.
Context {F : Type} `{Number F}.
Variable yf : YFinance F.

(** X15: the table has one row and one font colour per record, in the
    order of the records; a row marked "Up" is green, a row marked "Down"
    is red and there is no third mark; and the table has no column at all
    exactly when there is no record. *)
Theorem create_stock_table_marks_and_colours (stock_df : list (StockRow F))
    (self : DumbergAPI) :
  exists header cells colors,
    create_stock_table stock_df self
    = (Ok {| traces := [Table header cells colors]; title := "" |}, self)
    /\ map (@t_Ticker F) cells = map (@Ticker F) stock_df
    /\ map (@t_Price F) cells = map (@Current_Price F) stock_df
    /\ Forall2
         (fun shown color =>
            (t_Status shown = "Up"%string /\ color = "#4af6c3"%string)
            \/ (t_Status shown = "Down"%string /\ color = "#ff433d"%string))
         cells colors
    /\ (header = [] <-> stock_df = []).
Proof.
  unfold create_stock_table.
  set (body := fun (rc : list (TableRow F) * list string) row => _).
  assert (L : forall xs rows colors s,
             for_loop xs body (rows, colors) s
             = (Ok (rows ++ map shown_row xs, colors ++ map color_of xs), s)).
  { induction xs as [|x xs IH]; intros rows colors s; simpl.
    - now rewrite !app_nil_r.
    - unfold bind. unfold body at 1. unfold ret at 1. cbn [fst snd].
      rewrite IH, <- !app_assoc. reflexivity. }
  unfold bind. rewrite L. cbn [fst snd app]. do 3 eexists.
  split; [reflexivity|].
  split; [now rewrite map_map|]. split; [now rewrite map_map|]. split.
  - induction stock_df as [|row rows IH]; [constructor|].
    cbn [map]. constructor; [|exact IH].
    unfold shown_row, color_of, status_of. cbn [t_Status].
    destruct (ngt (Current_Price row) (Opening_Price row)); cbn; auto.
  - destruct stock_df; cbn; split; intro E; try reflexivity; discriminate.
Qed.

Lemma all_billions_cases (tickers : list string) :
  match all_billions yf tickers with
  | Some market_caps =>
      length market_caps = length tickers
      /\ Forall (fun ticker => marketCap (info yf ticker) <> Null) tickers
  | None =>
      exists ticker, In ticker tickers /\ marketCap (info yf ticker) = Null
  end.
Proof.
  induction tickers as [|t ts IH]; [split; [reflexivity | constructor]|].
  cbn [all_billions]. unfold billions at 1.
  destruct (marketCap (info yf t)) as [| |cap] eqn:M.
  - destruct (all_billions yf ts) as [caps|].
    + destruct IH as [L P]. split; [cbn; now rewrite L|].
      constructor; [congruence | exact P].
    + destruct IH as [u [I U]]. exists u. split; [now right | exact U].
  - exists t. split; [now left | exact M].
  - destruct (all_billions yf ts) as [caps|].
    + destruct IH as [L P]. split; [cbn; now rewrite L|].
      constructor; [congruence | exact P].
    + destruct IH as [u [I U]]. exists u. split; [now right | exact U].
Qed.

(** X16: the donut chart is built when every selected identifier is a
    display name of the registry and no capitalisation is [None], with one
    slice per identifier, labelled by the registered symbol, in the order
    of the selection.  Otherwise no chart is built: the call raises
    [KeyError] for the first selected identifier that is not a display
    name, and when all are display names it raises [TypeError] because the
    profile of a selected company holds the capitalisation [None]. *)
Theorem plot_donut_chart_slices_or_error (self : DumbergAPI)
    (selected : list string) :
  let d := company_dict self in
  (Forall (fun company => In company (keys d)) selected
   /\ Forall (fun company => marketCap (info yf (resolve d company)) <> Null)
             selected
   /\ exists market_caps,
        outcome (plot_donut_chart yf selected) self
        = Ok {| traces := [Pie (map (resolve d) selected) market_caps];
                title := "Market Cap Distribution" |}
        /\ length market_caps = length selected)
  \/ (exists known company rest,
        selected = known ++ company :: rest
        /\ Forall (fun c => In c (keys d)) known
        /\ ~ In company (keys d)
        /\ outcome (plot_donut_chart yf selected) self
           = Raise (KeyError company))
  \/ (Forall (fun company => In company (keys d)) selected
      /\ (exists company,
             In company selected
             /\ marketCap (info yf (resolve d company)) = Null)
      /\ outcome (plot_donut_chart yf selected) self
         = Raise (TypeError dividing_None)).
Proof.
  intro d. unfold outcome. rewrite plot_donut_chart_run. fold d.
  assert (Split :
    match first_unknown d selected with
    | None => Forall (fun c => In c (keys d)) selected
    | Some company =>
        exists known rest,
          selected = known ++ company :: rest
          /\ Forall (fun c => In c (keys d)) known
          /\ ~ In company (keys d)
    end).
  { induction selected as [|c cs IH]; [constructor|].
    cbn [first_unknown find].
    destruct (lookup d c) as [v|] eqn:L.
    - assert (K : In c (keys d)) by (apply lookup_keys; congruence).
      fold (first_unknown d cs).
      destruct (first_unknown d cs) as [u|].
      + destruct IH as [known [rest [E [Kn U]]]].
        exists (c :: known), rest. rewrite E.
        split; [reflexivity|]. split; [now constructor | exact U].
      + now constructor.
    - exists [], cs. split; [reflexivity|]. split; [constructor|].
      intro K. apply lookup_keys in K. contradiction. }
  destruct (first_unknown d selected) as [company|].
  - right. left. destruct Split as [known [rest [E [Kn U]]]].
    exists known, company, rest. repeat split; assumption.
  - cbv zeta. pose proof (all_billions_cases (map (resolve d) selected)) as C.
    destruct (all_billions yf (map (resolve d) selected)) as [caps|].
    + left. destruct C as [L P]. split; [exact Split|]. split.
      * apply Forall_forall. intros company Ic.
        rewrite Forall_forall in P. apply P. now apply in_map.
      * exists caps. split; [reflexivity|]. now rewrite L, length_map.
    + right. right. destruct C as [t [I N]]. split; [exact Split|].
      split; [|reflexivity].
      apply in_map_iff in I. destruct I as [company [<- I]].
      exists company. split; assumption.
Qed.

(** X17: the performance chart of a ticker without history is the empty
    figure; with a history it is one line with one point per session, the
    dates and the returns side by side, the first return missing. *)
Theorem plot_performance_chart_points (ticker : string) (self : DumbergAPI) :
  (history yf ticker P1y = []
   /\ outcome (plot_performance_chart yf ticker) self = Ok empty_figure)
  \/ (exists x y,
        outcome (plot_performance_chart yf ticker) self
        = Ok {| traces := [Scatter x y];
                title := (ticker ++ " Performance (Cumulative Returns)")%string |}
        /\ x = map (@timestamp F) (history yf ticker P1y)
        /\ length y = length x
        /\ hd_error y = Some None).
Proof.
  unfold outcome, plot_performance_chart.
  destruct (history yf ticker P1y) as [|p ps] eqn:Hist.
  - left. split; reflexivity.
  - right. do 2 eexists. split; [reflexivity|]. split; [reflexivity|].
    split; [now rewrite Returns_length, !length_map|].
    cbn [map]. apply Returns_head_missing.
Qed.

(** The candlestick chart is always one trace whose five columns have
    one entry per session of the download, also when the download is
    empty: there is no empty-figure fallback here. *)
Lemma plot_candlestick_columns (self : DumbergAPI) :
  exists x o h l c,
    plot_candlestick yf self
    = (Ok {| traces := [Candlestick x o h l c];
             title := "S&P 500 Stock Prices (2023-2024)" |}, self)
    /\ Forall (fun column : list F => length column = length x) [o; h; l; c]
    /\ combine x c
       = map (fun p => (timestamp p, p_close p))
             (download yf "^GSPC"
                {| year := 2023; month := 1; day := 1 |}
                {| year := 2024; month := 12; day := 31 |}).
Proof.
  unfold plot_candlestick. cbv zeta. do 5 eexists.
  split; [reflexivity|]. split.
  - repeat constructor; now rewrite !length_map.
  - generalize (download yf "^GSPC"
                  {| year := 2023; month := 1; day := 1 |}
                  {| year := 2024; month := 12; day := 31 |}).
    intro df. induction df as [|p ps IH]; [reflexivity|].
    cbn [map combine]. now rewrite IH.
Qed.

End Charts.

(** ** Cumulative returns, in general *)

(** Two runs in binary64 where a close is NaN or zero: a NaN close is
    padded with the close before it, and a change that is NaN adds
    nothing to the running sum. *)
Example Returns_with_NaN_close :
  Returns [100; nan; 121]%float
  = [None; Some 0%float; Some 0x1.4ffffffffffffp+4%float].
Proof. vm_compute. reflexivity. Qed.

Example Returns_with_zero_closes :
  Returns [0; 0; 1; 2]%float = [None; None; Some infinity; Some infinity].
Proof. vm_compute. reflexivity. Qed.

(** *** In exact arithmetic

    The rationals have no NaN: every value enters a Series as it is.  They
    stand for the floats of the source where no divisor is zero, which the
    statements below secure by taking the closes positive. *)

Lemma map_entry_exact (l : list Q) : map entry l = map Some l.
Proof. reflexivity. Qed.

Lemma div_sub1_shifted (a : Q) (l : list Q) :
  div_sub1 (map Some l) (removelast (Some a :: map Some l))
  = map Some (pairwise_changes (a :: l)).
Proof.
  revert a. induction l as [|b l IH]; intro a; [reflexivity|].
  change (removelast (Some a :: map Some (b :: l)))
    with (Some a :: removelast (Some b :: map Some l)).
  change (pairwise_changes (a :: b :: l))
    with ((b / a - 1) :: pairwise_changes (b :: l)).
  cbn [map div_sub1]. rewrite IH. reflexivity.
Qed.

Lemma div_sub1_shift_present (a : Q) (l : list Q) :
  div_sub1 (map Some (a :: l)) (shift (map Some (a :: l)))
  = None :: map Some (pairwise_changes (a :: l)).
Proof.
  cbn [map shift div_sub1]. f_equal. apply div_sub1_shifted.
Qed.

Lemma pct_change_present (a : Q) (l : list Q) :
  pct_change (map Some (a :: l))
  = None :: map Some (pairwise_changes (a :: l)).
Proof.
  unfold pct_change, ffill. cbv zeta. rewrite ffill_from_present.
  apply div_sub1_shift_present.
Qed.

Lemma cumsum_from_present (acc : Q) (l : list Q) :
  cumsum_from acc (map Some l) = map Some (running_sums acc l).
Proof.
  revert acc. induction l as [|x l IH]; intro acc; [reflexivity|].
  cbn [map cumsum_from running_sums]. rewrite IH. reflexivity.
Qed.

Lemma scale_present (k : Q) (l : list Q) :
  scale k (map Some l) = map (fun x => Some (x * k)) l.
Proof. unfold scale. rewrite map_map. reflexivity. Qed.

Lemma dropna_present (l : list Q) : dropna (map Some l) = l.
Proof.
  induction l as [|x l IH]; [reflexivity|].
  cbn [map dropna nisnan Q_Number]. now rewrite IH.
Qed.

Lemma Returns_exact (c : Q) (closes : list Q) :
  Returns (c :: closes)
  = None :: map (fun sum => Some (sum * 100))
                (running_sums 0 (pairwise_changes (c :: closes))).
Proof.
  unfold Returns, cumsum. rewrite map_entry_exact, pct_change_present.
  cbn [cumsum_from]. rewrite cumsum_from_present.
  change (scale n100 (None :: map Some
            (running_sums n0 (pairwise_changes (c :: closes)))))
    with (None :: scale 100 (map Some
            (running_sums 0 (pairwise_changes (c :: closes))))).
  now rewrite scale_present.
Qed.

(** X18: in exact arithmetic and for positive closes, the [Returns] column
    of a history is, after a missing first entry, the running sum of the
    changes from each close to the next, times 100: a sum of one-session
    changes, not a compounded return. *)
Theorem Returns_running_sums (c : Q) (closes : list Q) :
  0 < c -> Forall (fun close => 0 < close) closes ->
  Returns (c :: closes)
  = None :: map (fun sum => Some (sum * 100))
                (running_sums 0 (pairwise_changes (c :: closes))).
Proof. intros _ _. apply Returns_exact. Qed.

Lemma Returns_running_sums_witness :
  0 < 100 /\ Forall (fun close => 0 < close) [110; 121]
  /\ Returns [100; 110; 121]
     = None :: map (fun sum => Some (sum * 100))
                   (running_sums 0 (pairwise_changes [100; 110; 121])).
Proof.
  assert (P : 0 < 100) by reflexivity.
  assert (A : Forall (fun close => 0 < close) [110; 121])
    by (repeat constructor).
  split; [exact P|]. split; [exact A|].
  exact (@Returns_running_sums 100 [110; 121] P A).
Defined.

Lemma rising_change_positive (a b : Q) : 0 < a -> a < b -> 0 < b / a - 1.
Proof.
  intros Pa L. unfold Qminus. rewrite <- Qlt_minus_iff.
  apply Qlt_shift_div_l; [exact Pa|]. now rewrite Qmult_1_l.
Qed.

Lemma rising_changes_positive (a : Q) (l : list Q) :
  0 < a -> rising a l -> Forall (fun change => 0 < change) (pairwise_changes (a :: l)).
Proof.
  revert a. induction l as [|b l IH]; intros a Pa R; [constructor|].
  destruct R as [L R]. cbn [pairwise_changes]. constructor.
  - now apply rising_change_positive.
  - apply IH; [|exact R]. now apply Qlt_trans with a.
Qed.

Lemma running_sums_positive (acc : Q) (l : list Q) :
  0 <= acc -> Forall (fun x => 0 < x) l ->
  Forall (fun sum => 0 < sum) (running_sums acc l).
Proof.
  revert acc. induction l as [|x l IH]; intros acc A P; [constructor|].
  inversion P as [|? ? Px Pl]; subst.
  assert (S : 0 < acc + x).
  { apply Qlt_le_trans with (0 + x).
    - now rewrite Qplus_0_l.
    - apply Qplus_le_l. exact A. }
  cbn [running_sums]. constructor; [exact S|].
  apply IH; [now apply Qlt_le_weak | exact Pl].
Qed.

(** X19: when every close of a history is positive and higher than the one
    before, every cumulative return of the [Returns] column is positive. *)
Theorem Returns_of_rising_prices (c : Q) (closes : list Q) :
  0 < c -> rising c closes ->
  Forall (fun entry => match entry with
                       | Some cumulative => 0 < cumulative
                       | None => True
                       end)
         (Returns (c :: closes)).
Proof.
  intros Pc R. rewrite Returns_exact. constructor; [exact I|].
  pose proof (@running_sums_positive 0 _ (Qle_refl 0)
                (@rising_changes_positive c closes Pc R)) as P.
  apply Forall_map. eapply Forall_impl; [|exact P].
  intros sum Ps. cbn [nmul n100 Q_Number].
  apply Qmult_lt_0_compat; [exact Ps | reflexivity].
Qed.

Lemma Returns_of_rising_prices_witness :
  0 < 100 /\ rising 100 [110; 121]
  /\ Forall (fun entry => match entry with
                          | Some cumulative => 0 < cumulative
                          | None => True
                          end)
            (Returns [100; 110; 121]).
Proof.
  assert (P : 0 < 100) by reflexivity.
  assert (R : rising 100 [110; 121]) by (repeat split).
  split; [exact P|]. split; [exact R|].
  exact (@Returns_of_rising_prices 100 [110; 121] P R).
Defined.

(** ** The waterfall chart, in general *)

Section WaterfallValues.
Context {F : Type} `{Number F}.

Lemma all_present_map_Some (s : Series F) :
  Forall present s -> exists l, s = map Some l /\ length l = length s.
Proof.
  induction 1 as [|x s Px _ [l [E L]]].
  - exists []. split; reflexivity.
  - destruct x as [v|]; [|now elim Px].
    exists (v :: l). cbn [map length]. now rewrite E, L at 1.
Qed.

Lemma fold_min_const (ks : list Z) (k : Z) :
  Forall (fun x => x = k) ks -> fold_left Z.min ks k = k.
Proof.
  induction 1 as [|x ks -> _ IH]; [reflexivity|].
  cbn [fold_left]. now rewrite Z.min_id.
Qed.

Lemma fold_max_const (ks : list Z) (k : Z) :
  Forall (fun x => x = k) ks -> fold_left Z.max ks k = k.
Proof.
  induction 1 as [|x ks -> _ IH]; [reflexivity|].
  cbn [fold_left]. now rewrite Z.max_id.
Qed.

(** The first bin of a resampled history is that of the earliest quarter
    with a session, and it is the only bin when all sessions fall in one
    quarter. *)
Lemma resample_Q_last_head (s : list (date * F)) :
  s <> [] ->
  exists first_quarter rest,
    resample_Q_last s
    = (quarter_end first_quarter, last_in_quarter first_quarter s) :: rest
    /\ In first_quarter (map (fun dv => quarter_index (fst dv)) s)
    /\ ((forall dv, In dv s -> quarter_index (fst dv) = first_quarter) ->
        rest = []).
Proof.
  intro NE. destruct s as [|dv0 s0]; [congruence|].
  unfold resample_Q_last. cbn [map].
  set (s := dv0 :: s0).
  set (k := quarter_index (fst dv0)).
  set (ks := map (fun dv : date * F => quarter_index (fst dv)) s0).
  set (lo := fold_left Z.min ks k).
  set (hi := fold_left Z.max ks k).
  assert (Lo : (lo <= hi)%Z).
  { pose proof (fold_min_le ks k). pose proof (fold_max_ge ks k).
    unfold lo, hi. lia. }
  assert (InLo : In lo (k :: ks)) by apply fold_min_In.
  destruct (quarters_between_head Lo) as [rest [R LR]]. rewrite R.
  cbn [map].
  exists lo. eexists. split; [reflexivity|]. split; [exact InLo|].
  intro One.
  assert (A : Forall (fun x => x = lo) (k :: ks)).
  { apply Forall_forall. intros x Ix.
    change (k :: ks)
      with (map (fun dv : date * F => quarter_index (fst dv)) s) in Ix.
    apply in_map_iff in Ix. destruct Ix as [dv [<- Idv]]. now apply One. }
  inversion A as [|? ? Ek Eks]; subst x l.
  assert (Ehi : hi = lo).
  { unfold hi. rewrite Ek. now apply fold_max_const. }
  rewrite Ehi, Z.sub_diag in LR. cbn in LR.
  destruct rest; [reflexivity | discriminate].
Qed.

Variable yf : YFinance F.
Variable index_strftime : string -> date -> string.

(** X22: when all the sessions of the history fall in one quarter, the
    waterfall chart has the label of that quarter and no value: nothing is
    drawn. *)
Theorem waterfall_single_quarter (ticker : string) (self : DumbergAPI)
    (quarter : Z) :
  history yf ticker P1y <> [] ->
  (forall p, In p (history yf ticker P1y) ->
             quarter_index (timestamp p) = quarter) ->
  exists fig,
    outcome (plot_waterfall_chart yf index_strftime ticker) self = Ok fig
    /\ traces fig
       = [Waterfall [index_strftime "%Y-Q%q" (quarter_end quarter)] []]
    /\ figure_points fig = [].
Proof.
  intros NE One.
  unfold outcome, plot_waterfall_chart.
  destruct (history yf ticker P1y) as [|p ps] eqn:Hist; [congruence|].
  cbv zeta. unfold ret. cbn [fst]. unfold quarterly_changes. cbv zeta.
  set (sessions := map (fun p0 : PricePoint F => (timestamp p0, p_close p0))
                       (p :: ps)).
  destruct (@resample_Q_last_head sessions)
    as [k [rest [E [Ik Single]]]]; [unfold sessions; discriminate|].
  assert (Ek : k = quarter).
  { unfold sessions in Ik. rewrite map_map in Ik. cbn [fst] in Ik.
    apply in_map_iff in Ik. destruct Ik as [p0 [<- Ip]]. now apply One. }
  assert (Er : rest = []).
  { apply Single. intros dv Idv. unfold sessions in Idv.
    apply in_map_iff in Idv. destruct Idv as [p0 [<- Ip]]. cbn [fst].
    rewrite Ek. now apply One. }
  rewrite E, Er, Ek. unfold series_values, index. cbn [map fst snd].
  destruct (pct_change_first_missing (last_in_quarter quarter sessions) [])
    as [changes [Pct L]].
  destruct changes; [|discriminate].
  rewrite Pct. eexists. split; [reflexivity|]. split; reflexivity.
Qed.

End WaterfallValues.

(** *** In exact arithmetic *)

Lemma pairwise_changes_length (a : Q) (l : list Q) :
  length (pairwise_changes (a :: l)) = length l.
Proof.
  revert a. induction l as [|b l IH]; intro a; [reflexivity|].
  change (pairwise_changes (a :: b :: l))
    with ((b / a - 1) :: pairwise_changes (b :: l)).
  cbn [length]. f_equal. apply IH.
Qed.

Lemma last_in_quarter_present (k : Z) (s : list (date * Q)) :
  In k (map (fun dv => quarter_index (fst dv)) s) ->
  last_in_quarter k s <> None.
Proof.
  unfold last_in_quarter.
  assert (G : forall acc,
             acc <> None \/ In k (map (fun dv => quarter_index (fst dv)) s) ->
             fold_left
               (fun acc (dv : date * Q) =>
                  if Z.eqb (quarter_index (fst dv)) k
                  then match entry (snd dv) with
                       | Some v => Some v
                       | None => acc
                       end
                  else acc)
               s acc <> None).
  { induction s as [|dv s IH]; intros acc [A|I]; simpl in *;
      try assumption; try contradiction; apply IH.
    - left. destruct (Z.eqb _ k); [discriminate | exact A].
    - destruct I as [E|I]; [left | now right].
      rewrite E, Z.eqb_refl. discriminate. }
  intro I. apply G. now right.
Qed.

(** X21: in exact arithmetic and for positive closes, the values of the
    waterfall chart of a history that is not empty are the changes from
    each quarter-end close to the next, times 100, a quarter without
    session counting with the close of the quarter before it; there is one
    value per quarter of the span but the first, and the labels are those
    of all the quarters of the span. *)
Theorem waterfall_values_are_quarter_changes (yf : YFinance Q)
    (index_strftime : string -> date -> string) (ticker : string)
    (self : DumbergAPI) :
  history yf ticker P1y <> [] ->
  Forall (fun p => 0 < p_close p) (history yf ticker P1y) ->
  let quarterly_data :=
    resample_Q_last
      (map (fun p => (timestamp p, p_close p)) (history yf ticker P1y)) in
  exists closes,
    ffill (series_values quarterly_data) = map Some closes
    /\ length closes = length quarterly_data
    /\ outcome (plot_waterfall_chart yf index_strftime ticker) self
       = Ok {| traces :=
                 [Waterfall
                    (map (index_strftime "%Y-Q%q") (index quarterly_data))
                    (map (fun change => change * 100)
                         (pairwise_changes closes))];
               title := (ticker ++ " Quarterly Performance")%string |}
    /\ S (length (pairwise_changes closes)) = length quarterly_data.
Proof.
  intros NE _ quarterly_data.
  unfold outcome, plot_waterfall_chart.
  destruct (history yf ticker P1y) as [|p ps] eqn:Hist; [congruence|].
  cbv zeta. unfold ret. cbn [fst]. unfold quarterly_changes. cbv zeta.
  fold quarterly_data.
  set (sessions := map (fun p0 : PricePoint Q => (timestamp p0, p_close p0))
                       (p :: ps)) in *.
  destruct (@resample_Q_last_head Q _ sessions)
    as [k [rest [E [Ik _]]]]; [unfold sessions; discriminate|].
  fold quarterly_data in E.
  destruct (last_in_quarter k sessions) as [a|] eqn:First.
  2:{ exfalso. now apply (@last_in_quarter_present k sessions Ik). }
  rewrite E.
  unfold series_values, index. cbn [map fst snd].
  destruct (all_present_map_Some (ffill_from_all_present a (map snd rest)))
    as [l [El Ll]].
  rewrite ffill_from_length in Ll.
  assert (Fill : ffill (Some a :: map snd rest) = map Some (a :: l)).
  { unfold ffill. cbn [ffill_from map]. now rewrite El. }
  assert (Pct : pct_change (Some a :: map snd rest)
                = None :: map Some (pairwise_changes (a :: l))).
  { unfold pct_change. cbv zeta. rewrite Fill.
    apply div_sub1_shift_present. }
  exists (a :: l). split; [exact Fill|].
  split; [cbn [length]; now rewrite Ll, length_map|].
  rewrite Pct.
  change (scale n100 (None :: map Some (pairwise_changes (a :: l))))
    with (None :: scale 100 (map Some (pairwise_changes (a :: l)))).
  rewrite scale_present. cbn [combine map fst snd dropna].
  assert (Same : length (map fst rest)
                 = length (map (fun x => Some (x * 100))
                               (pairwise_changes (a :: l)))).
  { rewrite !length_map, pairwise_changes_length, Ll.
    now rewrite length_map. }
  rewrite (map_snd_combine _ _ Same), (map_fst_combine _ _ Same).
  rewrite <- (map_map (fun x => x * 100) Some), dropna_present.
  split; [reflexivity|].
  cbn [length]. now rewrite pairwise_changes_length, Ll, length_map.
Qed.


Lemma waterfall_values_are_quarter_changes_witness :
  history (three_quarters 100 110 99) "AAPL" P1y <> []
  /\ Forall (fun p => 0 < p_close p)
            (history (three_quarters 100 110 99) "AAPL" P1y)
  /\ exists closes,
       ffill (series_values
                (resample_Q_last
                   (map (fun p => (timestamp p, p_close p))
                        (history (three_quarters 100 110 99) "AAPL" P1y))))
       = map Some closes
       /\ outcome (plot_waterfall_chart (three_quarters 100 110 99)
                     period_strftime "AAPL") init
          = Ok {| traces :=
                    [Waterfall
                       (map (period_strftime "%Y-Q%q")
                            (index
                               (resample_Q_last
                                  (map (fun p => (timestamp p, p_close p))
                                       (history (three_quarters 100 110 99)
                                                "AAPL" P1y)))))
                       (map (fun change => change * 100)
                            (pairwise_changes closes))];
                  title := "AAPL Quarterly Performance" |}.
Proof.
  assert (NE : history (three_quarters 100 110 99) "AAPL" P1y <> [])
    by discriminate.
  assert (Pos : Forall (fun p => 0 < p_close p)
                       (history (three_quarters 100 110 99) "AAPL" P1y))
    by (repeat constructor).
  split; [exact NE|]. split; [exact Pos|].
  destruct (@waterfall_values_are_quarter_changes
              (three_quarters 100 110 99) period_strftime "AAPL" init NE Pos)
    as [closes [Fill [_ [E _]]]].
  exists closes. split; [exact Fill | exact E].
Defined.

Lemma waterfall_single_quarter_witness :
  history (one_quarter 100 110) "AAPL" P1y <> []
  /\ (forall p, In p (history (one_quarter 100 110) "AAPL" P1y) ->
                quarter_index (timestamp p) = 8097%Z)
  /\ exists fig,
       outcome (plot_waterfall_chart (one_quarter 100 110) period_strftime
                  "AAPL") init = Ok fig
       /\ traces fig = [Waterfall ["2024-Q2"%string] []].
Proof.
  assert (NE : history (one_quarter 100 110) "AAPL" P1y <> [])
    by discriminate.
  assert (One : forall p, In p (history (one_quarter 100 110) "AAPL" P1y) ->
                          quarter_index (timestamp p) = 8097%Z).
  { intros p [<-|[<-|[]]]; reflexivity. }
  split; [exact NE|]. split; [exact One|].
  destruct (@waterfall_single_quarter Q _ (one_quarter 100 110)
              period_strftime "AAPL" init 8097%Z NE One) as [fig [E [T _]]].
  exists fig. split; [exact E | exact T].
Defined.

(** ** Capitalisations that are there or absent *)

(** X23: when no profile of the tickers holds the capitalisation [None],
    the loop of [plot_donut_chart] returns one capitalisation per ticker,
    in the order of the tickers: the raw capitalisation divided by 1e9,
    and 0 divided by 1e9 for a profile without the key; the object is left
    as it was. *)
Theorem market_caps_in_order_without_None (F : Type) (N : Number F)
    (yf : YFinance F) (self : DumbergAPI) (tickers : list string) :
  Forall (fun ticker => marketCap (info yf ticker) <> Null) tickers ->
  exists market_caps,
    market_caps_loop yf tickers self = (Ok market_caps, self)
    /\ length market_caps = length tickers
    /\ Forall2
         (fun ticker market_cap =>
            match marketCap (info yf ticker) with
            | Value raw => market_cap = (raw / n1e9)%num
            | Absent => market_cap = (n0 / n1e9)%num
            | Null => False
            end)
         tickers market_caps.
Proof.
  intro NoNone.
  destruct (@all_billions_without_None F N yf tickers NoNone)
    as [caps [E P]].
  exists caps. rewrite market_caps_loop_run, E.
  split; [reflexivity|]. split; [|exact P].
  symmetry. now apply (Forall2_length P).
Qed.

Lemma market_caps_in_order_without_None_witness :
  Forall (fun ticker => marketCap (info (cap_of_apple 3e12) ticker) <> Null)
         ["TSLA"; "AAPL"]%string
  /\ exists market_caps,
       market_caps_loop (cap_of_apple 3e12) ["TSLA"; "AAPL"]%string init
       = (Ok market_caps, init)
       /\ length market_caps = 2%nat.
Proof.
  assert (A : Forall (fun ticker =>
                        marketCap (info (cap_of_apple 3e12) ticker) <> Null)
                     ["TSLA"; "AAPL"]%string)
    by (repeat constructor; discriminate).
  split; [exact A|].
  destruct (@market_caps_in_order_without_None Q _ (cap_of_apple 3e12) init
              ["TSLA"; "AAPL"]%string A) as [caps [E [L _]]].
  exists caps. split; [exact E | exact L].
Defined.
